(** * Purchase-order combiner: a model of [combine_purchase_orders.py]

    The development follows the script top-down: Python's string
    operations and the fragment of [re] the script uses, the text
    normalizer, the column matcher, the sheet extractor, the
    processed-file ledger and the per-year aggregation (projection onto
    the required columns, duplicate removal, date ordering).

    Text is modelled by [string]; a character is a code point below 256
    (Latin-1), which is where Python's [str.isspace], [str.lower],
    [str.isdigit] and the classes [\s], [\d], [\w] of [re] are tabulated
    below. *)

From Stdlib Require Import Ascii NArith.
From stdpp Require Import base gmap strings list sorting pretty.

(** ** Python strings *)

Module Py.

Local Open Scope N_scope.

Definition code (c : ascii) : N := N_of_ascii c.

(** [str.isspace] on one character, which is also the class [\s]. *)
Definition isspace (c : ascii) : bool :=
  let n := code c in
  ((9 <=? n) && (n <=? 13)) || ((28 <=? n) && (n <=? 32))
  || (n =? 133) || (n =? 160).

(** [str.lower] on one character. *)
Definition lower_char (c : ascii) : ascii :=
  let n := code c in
  if ((65 <=? n) && (n <=? 90))
     || ((192 <=? n) && (n <=? 222) && negb (n =? 215))
  then ascii_of_N (n + 32) else c.

(** [str.upper] on one character.  The three Latin-1 letters whose upper
    case leaves Latin-1 (the sharp s, the micro sign and y with diaeresis)
    are kept as they are: the script only compares upper-cased text with
    ASCII constants, none of which contains [SS]. *)
Definition upper_char (c : ascii) : ascii :=
  let n := code c in
  if ((97 <=? n) && (n <=? 122))
     || ((224 <=? n) && (n <=? 254) && negb (n =? 247))
  then ascii_of_N (n - 32) else c.

(** [str.isdigit] on one character: the decimal digits and the three
    superscript digits of Latin-1. *)
Definition isdigit_char (c : ascii) : bool :=
  let n := code c in
  ((48 <=? n) && (n <=? 57)) || (n =? 178) || (n =? 179) || (n =? 185).

(** The class [\d]: decimal digits only. *)
Definition isdecimal_char (c : ascii) : bool :=
  let n := code c in (48 <=? n) && (n <=? 57).

(** [str.isalpha] on one character. *)
Definition isalpha_char (c : ascii) : bool :=
  let n := code c in
  ((65 <=? n) && (n <=? 90)) || ((97 <=? n) && (n <=? 122))
  || (n =? 170) || (n =? 181) || (n =? 186)
  || ((192 <=? n) && (n <=? 255) && negb (n =? 215) && negb (n =? 247)).

(** The class [\w]: alphanumeric characters and the underscore. *)
Definition isword_char (c : ascii) : bool :=
  let n := code c in
  isalpha_char c || isdigit_char c
  || (n =? 188) || (n =? 189) || (n =? 190) || (n =? 95).

Fixpoint lower (s : string) : string :=
  match s with
  | EmptyString => EmptyString
  | String c s' => String (lower_char c) (lower s')
  end.

Fixpoint upper (s : string) : string :=
  match s with
  | EmptyString => EmptyString
  | String c s' => String (upper_char c) (upper s')
  end.

Fixpoint lstrip (s : string) : string :=
  match s with
  | EmptyString => EmptyString
  | String c s' => if isspace c then lstrip s' else s
  end.

Fixpoint rstrip (s : string) : string :=
  match s with
  | EmptyString => EmptyString
  | String c s' =>
      match rstrip s' with
      | EmptyString => if isspace c then EmptyString else String c EmptyString
      | r => String c r
      end
  end.

Definition strip (s : string) : string := rstrip (lstrip s).

(** Truthiness of a string: [if s:]. *)
Definition truthy (s : string) : bool :=
  match s with EmptyString => false | _ => true end.

Fixpoint all_chars (p : ascii -> bool) (s : string) : bool :=
  match s with
  | EmptyString => true
  | String c s' => p c && all_chars p s'
  end.

Definition isdigit (s : string) : bool := truthy s && all_chars isdigit_char s.

Fixpoint startswith (p s : string) : bool :=
  match p, s with
  | EmptyString, _ => true
  | String a p', String b s' => if Ascii.eqb a b then startswith p' s' else false
  | String _ _, EmptyString => false
  end.

(** [sub in s] *)
Fixpoint contains (sub s : string) : bool :=
  startswith sub s
  || match s with
     | EmptyString => false
     | String _ s' => contains sub s'
     end.

(** [s.split()]: the maximal runs of characters that are not white space.
    [cur] holds the word being read, last character first. *)
Fixpoint split_go (cur : string) (s : string) : list string :=
  match s with
  | EmptyString =>
      match cur with EmptyString => [] | _ => [String.rev cur] end
  | String c s' =>
      if isspace c
      then match cur with
           | EmptyString => split_go EmptyString s'
           | _ => String.rev cur :: split_go EmptyString s'
           end
      else split_go (String c cur) s'
  end.

Definition split (s : string) : list string := split_go EmptyString s.

(** [sep.join(parts)] *)
Fixpoint join (sep : string) (parts : list string) : string :=
  match parts with
  | [] => EmptyString
  | [p] => p
  | p :: ps => p +:+ sep +:+ join sep ps
  end.

(** [s.replace(c, '')] for a one-character [c]. *)
Fixpoint remove_char (c : ascii) (s : string) : string :=
  match s with
  | EmptyString => EmptyString
  | String d s' => if Ascii.eqb c d then remove_char c s' else String d (remove_char c s')
  end.

End Py.

(** ** The fragment of [re] used by the script *)

Module Re.

(** [re.sub(r'[cls]+', ' ', s)]: every maximal run of characters of the
    class is replaced by one space.  [in_run] tells that the previous
    character belonged to the run being replaced. *)
Fixpoint sub_runs_go (cls : ascii -> bool) (in_run : bool) (s : string) : string :=
  match s with
  | EmptyString => EmptyString
  | String c s' =>
      if cls c
      then if in_run then sub_runs_go cls true s'
           else String " " (sub_runs_go cls true s')
      else String c (sub_runs_go cls false s')
  end.

Definition sub_runs (cls : ascii -> bool) (s : string) : string :=
  sub_runs_go cls false s.

(** [re.sub(r'[cls]', '', s)]: every character of the class is removed. *)
Fixpoint remove_class (cls : ascii -> bool) (s : string) : string :=
  match s with
  | EmptyString => EmptyString
  | String c s' => if cls c then remove_class cls s' else String c (remove_class cls s')
  end.

(** A pattern is a sequence of atoms; [Open] and [Close] delimit group 1.
    Literals compare case-insensitively ([re.IGNORECASE]). *)
Inductive atom : Type :=
  | Lit (c : ascii)
  | Cls (p : ascii -> bool)
  | Opt (p : ascii -> bool)
  | Star (p : ascii -> bool)
  | Open
  | Close.

Definition push (rec : bool) (c : ascii) (acc : string) : string :=
  if rec then String c acc else acc.

(** Backtracking match of a pattern at the head of [s]: greedy repetition,
    first success wins.  The result is the text of group 1.  [rec] tells
    that the group is open, [acc] is its text so far, last character
    first. *)
Fixpoint run (p : list atom) : string -> bool -> string -> option string :=
  match p with
  | [] => fun _ _ acc => Some (String.rev acc)
  | Lit c :: p' => fun s rec acc =>
      match s with
      | String d s' =>
          if Ascii.eqb (Py.lower_char c) (Py.lower_char d)
          then run p' s' rec (push rec d acc) else None
      | EmptyString => None
      end
  | Cls f :: p' => fun s rec acc =>
      match s with
      | String d s' => if f d then run p' s' rec (push rec d acc) else None
      | EmptyString => None
      end
  | Opt f :: p' => fun s rec acc =>
      match s with
      | String d s' =>
          if f d
          then match run p' s' rec (push rec d acc) with
               | Some r => Some r
               | None => run p' s rec acc
               end
          else run p' s rec acc
      | EmptyString => run p' s rec acc
      end
  | Star f :: p' => fun s rec acc =>
      (fix star (s : string) (acc : string) {struct s} : option string :=
         match s with
         | String d s' =>
             if f d
             then match star s' (push rec d acc) with
                  | Some r => Some r
                  | None => run p' s rec acc
                  end
             else run p' s rec acc
         | EmptyString => run p' s rec acc
         end) s acc
  | Open :: p' => fun s _ _ => run p' s true EmptyString
  | Close :: p' => fun s _ acc => run p' s false acc
  end.

(** [re.match(p, s)] followed by [.group(1)]. *)
Definition match_ (p : list atom) (s : string) : option string :=
  run p s false EmptyString.

(** [re.search(p, s)] followed by [.group(1)]: the leftmost position at
    which the pattern matches. *)
Fixpoint search (p : list atom) (s : string) : option string :=
  match match_ p s with
  | Some g => Some g
  | None =>
      match s with
      | EmptyString => None
      | String _ s' => search p s'
      end
  end.

Fixpoint lit (s : string) : list atom :=
  match s with
  | EmptyString => []
  | String c s' => Lit c :: lit s'
  end.

Definition plus (f : ascii -> bool) : list atom := [Cls f; Star f].

(** The class [.]: anything but a line feed. *)
Definition dot (c : ascii) : bool := negb (Ascii.eqb c "010").

End Re.

(** ** Configuration *)

(** The exact column list of the output files, in order. *)
Definition REQUIRED_COLUMNS : list string :=
  [ "Folder";
    "Product Type (NEW)";
    "Source_File";
    "Sheet_Name";
    "Production Order Form";
    "Reference Format No";
    "PO Reference";
    "Reference Order No";
    "Order Form";
    "Order Type";
    "Order Date";
    "O.F. Date";
    "PO Date";
    "Generic Name";
    "Brand Name";
    "Quantity";
    "Pack Size";
    "Product Rate (NEW)";
    "Packing Size";
    "Packing Type";
    "Strength";
    "Net Content";
    "M.R.P.";
    "M.R.P. (Per Strip)";
    "Exp. Date";
    "Shelf Life";
    "Flavour";
    "Colour";
    "Packaging";
    "Bottle Type";
    "Measuring Cap";
    "Spray Pump";
    "ROPP Cap";
    "Closure";
    "Cap Color";
    "Label Provided By";
    "Carton Provided By";
    "Dropper";
    "PVC Size";
    "PVC Colour";
    "PVC Color & Type";
    "Blister Type";
    "Capsules Size";
    "Capsules Color";
    "Capsule Type";
    "Punch Size";
    "Tablet Color";
    "Coating Type";
    "Jar";
    "Jar Type";
    "Jar Lid Color";
    "Tin Type";
    "Tin / Jar Type";
    "Tin / Jar Rim Type";
    "Corrugated Box";
    "Corrugated Box Pack Size";
    "Corrugated Tin";
    "Cap / Lid / Spoon";
    "Spoon";
    "Leaflet";
    "Dropper (if not counted earlier)";
    "Strapping";
    "Wrapping";
    "Shrinking";
    "Dispatched Detail";
    "Date Of Dispatch";
    "Company Name";
    "Name Of Client";
    "Name Of Marketed By";
    "Contact Person";
    "Contact Number";
    "Contact Detail Of Dispatch";
    "Specific Requirement If Any";
    "Artwork Revision";
    "Artwork Revision No";
    "Prepared By";
    "Checked By";
    "Approved Date";
    "Issued By Sign & Date";
    "Checked & Authorised Sign & Date";
    "Authorised Sign";
    "Designation";
    "Rate";
    "Due Payment";
    "Remark";
    "Product Batch Number" ].

(** The [variations] dictionary of [match_column_name], in source order. *)
Definition variations_items : list (string * string) :=
  [ ("reference format no", "Reference Format No");
    ("ref format no", "Reference Format No");
    ("reference format", "Reference Format No");
    ("po reference", "PO Reference");
    ("po ref", "PO Reference");
    ("reference order no", "Reference Order No");
    ("order form number", "Order Form");
    ("order form no", "Order Form");
    ("order form", "Order Form");
    ("order type", "Order Type");
    ("order date", "Order Date");
    ("of date", "O.F. Date");
    ("o.f. date", "O.F. Date");
    ("po date", "PO Date");
    ("generic name", "Generic Name");
    ("brand name", "Brand Name");
    ("quantity", "Quantity");
    ("qty", "Quantity");
    ("qty uom", "Qty (UOM)");
    ("qty (uom)", "Qty (UOM)");
    ("pack size", "Pack Size");
    ("packing size", "Packing Size");
    ("packing type", "Packing Type");
    ("strength", "Strength");
    ("net content", "Net Content");
    ("m.r.p", "M.R.P.");
    ("mrp", "M.R.P.");
    ("m.r.p.", "M.R.P.");
    ("m.r.p. per strip", "M.R.P. (Per Strip)");
    ("exp date", "Exp. Date");
    ("expiry date", "Exp. Date");
    ("shelf life", "Shelf Life");
    ("flavour", "Flavour");
    ("flavor", "Flavour");
    ("colour", "Colour");
    ("color", "Colour");
    ("packaging", "Packaging");
    ("bottle type", "Bottle Type");
    ("measuring cap", "Measuring Cap");
    ("spray pump", "Spray Pump");
    ("ropp cap", "ROPP Cap");
    ("closure", "Closure");
    ("cap color", "Cap Color");
    ("cap colour", "Cap Color");
    ("label provided by", "Label Provided By");
    ("carton provided by", "Carton Provided By");
    ("dropper", "Dropper");
    ("pvc size", "PVC Size");
    ("pvc colour", "PVC Colour");
    ("pvc color", "PVC Colour");
    ("pvc color type", "PVC Color & Type");
    ("pvc color & type", "PVC Color & Type");
    ("blister type", "Blister Type");
    ("capsules size", "Capsules Size");
    ("capsule size", "Capsules Size");
    ("capsules color", "Capsules Color");
    ("capsule color", "Capsules Color");
    ("capsules colour", "Capsules Color");
    ("capsule type", "Capsule Type");
    ("tablet color", "Tablet Color");
    ("tablet colour", "Tablet Color");
    ("coating type", "Coating Type");
    ("punch size", "Punch Size");
    ("jar", "Jar");
    ("jar type", "Jar Type");
    ("tin type", "Tin Type");
    ("tin jar type", "Tin / Jar Type");
    ("tin / jar type", "Tin / Jar Type");
    ("tin jar rim type", "Tin / Jar Rim Type");
    ("tin / jar rim type", "Tin / Jar Rim Type");
    ("jar lid color", "Jar Lid Color");
    ("corrugated box", "Corrugated Box");
    ("corrugated box pack size", "Corrugated Box Pack Size");
    ("corrugated tin", "Corrugated Tin");
    ("cap lid spoon", "Cap / Lid / Spoon");
    ("cap / lid / spoon", "Cap / Lid / Spoon");
    ("spoon", "Spoon");
    ("leaflet", "Leaflet");
    ("strapping", "Strapping");
    ("wrapping", "Wrapping");
    ("shrinking", "Shrinking");
    ("dispatched detail", "Dispatched Detail");
    ("company name", "Company Name");
    ("name of client", "Name Of Client");
    ("name of marketed by", "Name Of Marketed By");
    ("marketed by", "Name Of Marketed By");
    ("contact person", "Contact Person");
    ("contact number", "Contact Number");
    ("contact detail of dispatch", "Contact Detail Of Dispatch");
    ("date of dispatch", "Date Of Dispatch");
    ("specific requirement if any", "Specific Requirement If Any");
    ("artwork revision", "Artwork Revision");
    ("artwork revision no", "Artwork Revision No");
    ("prepared by", "Prepared By");
    ("checked by", "Checked By");
    ("approved date", "Approved Date");
    ("issued by sign date", "Issued By Sign & Date");
    ("checked authorised sign date", "Checked & Authorised Sign & Date");
    ("authorised sign", "Authorised Sign");
    ("designation", "Designation");
    ("rate", "Rate");
    ("due payment", "Due Payment");
    ("remark", "Remark");
    ("product batch number", "Product Batch Number") ].

Global Arguments REQUIRED_COLUMNS : simpl never.

Definition variations : gmap string string := list_to_map variations_items.

(** ** Text normalizer *)

(** The class [[_\s\.\-\(\)]] of [normalize_text]. *)
Definition sep_class (c : ascii) : bool :=
  Ascii.eqb c "_" || Py.isspace c || Ascii.eqb c "." || Ascii.eqb c "-"
  || Ascii.eqb c "(" || Ascii.eqb c ")".

Definition normalize_text (text : string) : string :=
  if negb (Py.truthy text) then ""
  else
    let text := Py.lower (Py.strip text) in
    let text := Re.sub_runs sep_class text in
    Py.strip (Re.sub_runs Py.isspace text).

(** ** Column matcher *)

(** [set(s.split())] *)
Definition word_set (s : string) : gset string := list_to_set (Py.split s).

(** The second loop of [match_column_name].  It either returns a target
    at once ([inl]) or runs to the end and leaves [best_match] ([inr]). *)
Fixpoint fuzzy_loop (source_words : gset string) (target_columns : list string)
    (best_match : option string) (best_score : nat) : string + option string :=
  match target_columns with
  | [] => inr best_match
  | target :: rest =>
      let target_words := word_set (normalize_text target) in
      if bool_decide (source_words = target_words) then inl target
      else if bool_decide (source_words ⊆ target_words)
              || bool_decide (target_words ⊆ source_words)
      then
        let score := size (source_words ∩ target_words) in
        if (best_score <? score)%nat
        then fuzzy_loop source_words rest (Some target) score
        else fuzzy_loop source_words rest best_match best_score
      else fuzzy_loop source_words rest best_match best_score
  end.

(** The first loop of [match_column_name]. *)
Fixpoint exact_loop (source_normalized : string) (target_columns : list string)
    : option string :=
  match target_columns with
  | [] => None
  | target :: rest =>
      if bool_decide (normalize_text target = source_normalized) then Some target
      else exact_loop source_normalized rest
  end.

Definition match_column_name (source_name : string) (target_columns : list string)
    : option string :=
  if negb (Py.truthy source_name) then None
  else
    let source_normalized := normalize_text source_name in
    match exact_loop source_normalized target_columns with
    | Some target => Some target
    | None =>
        let source_words := word_set source_normalized in
        match fuzzy_loop source_words target_columns None 0 with
        | inl target => Some target
        | inr best_match =>
            match variations !! source_normalized with
            | Some column => Some column
            | None => best_match
            end
        end
    end.

(** ** Sheet extractor *)

(** A cell of a sheet read with [header=None]: empty ([NaN]) or a value,
    held as the text [str] gives for it. *)
Inductive cell : Type :=
  | NaN
  | Text (s : string).

Definition notna (c : cell) : bool :=
  match c with NaN => false | Text _ => true end.

Definition str (c : cell) : string :=
  match c with NaN => "nan" | Text s => s end.

(** A sheet: [columns] is [len(df.columns)], [rows] the grid; a row that
    is shorter than [columns] reads as empty cells to its right. *)
Record DataFrame : Type := {
  columns : nat;
  rows : list (list cell)
}.

Definition len (df : DataFrame) : nat := length (rows df).

Definition empty (df : DataFrame) : bool :=
  bool_decide (len df = 0%nat) || bool_decide (columns df = 0%nat).

(** [df.iloc[r, c]].  Every access of the script is guarded by
    [r < len(df)] and [c < len(df.columns)], so the out-of-range error of
    pandas does not arise. *)
Definition iloc (df : DataFrame) (r c : nat) : cell :=
  match rows df !! r with
  | Some row => default NaN (row !! c)
  | None => NaN
  end.

(** A Python [dict] with string keys: the items in insertion order. *)
Abbreviation dict := (list (string * string)).

Fixpoint dict_get (k : string) (d : dict) : option string :=
  match d with
  | [] => None
  | (k', v) :: d' => if bool_decide (k' = k) then Some v else dict_get k d'
  end.

(** [k in d] *)
Definition dict_in (k : string) (d : dict) : bool :=
  match dict_get k d with Some _ => true | None => false end.

(** [d[k] = v]: an existing key keeps its place, a new one goes last. *)
Fixpoint dict_set (k v : string) (d : dict) : dict :=
  match d with
  | [] => [(k, v)]
  | (k', v') :: d' =>
      if bool_decide (k' = k) then (k, v) :: d' else (k', v') :: dict_set k v d'
  end.

(** [x in [..]] for a list of strings. *)
Definition str_in_list (x : string) (l : list string) : bool :=
  existsb (fun y => bool_decide (x = y)) l.

Definition safe_extract (df : DataFrame) (row_index col_index : nat)
    (pattern : list Re.atom) : option string :=
  if bool_decide (row_index < len df)%nat && bool_decide (col_index < columns df)%nat
  then
    let cell_value := iloc df row_index col_index in
    if notna cell_value
    then match Re.search pattern (str cell_value) with
         | Some group1 => Some (Py.strip group1)
         | None => None
         end
    else None
  else None.

Definition ws : list Re.atom := [Re.Star Py.isspace].

Definition colon : list Re.atom := ws ++ [Re.Lit ":"] ++ ws.

Definition rest_of_line : list Re.atom := [Re.Open; Re.Star Re.dot; Re.Close].

(** The class [[\d\-/]]. *)
Definition date_class (c : ascii) : bool :=
  Py.isdecimal_char c || Ascii.eqb c "-" || Ascii.eqb c "/".

(** The pattern [Reference format no\.\*rev no\.:\s*] followed by the group [.*]. *)
Definition reference_format_re : list Re.atom :=
  Re.lit "Reference format no.*rev no.:" ++ ws ++ rest_of_line.

(** The pattern [Order form number\s*:\s*] followed by the group [\w+]. *)
Definition order_form_re : list Re.atom :=
  Re.lit "Order form number" ++ colon ++ [Re.Open] ++ Re.plus Py.isword_char ++ [Re.Close].

(** The pattern [O\.F\. Date\s*:\s*] followed by the group [[\d\-/]+]. *)
Definition of_date_re : list Re.atom :=
  Re.lit "O.F. Date" ++ colon ++ [Re.Open] ++ Re.plus date_class ++ [Re.Close].

(** The pattern [PO Date\s*:\s*] followed by the group [[\d\-/]+]. *)
Definition po_date_re : list Re.atom :=
  Re.lit "PO Date" ++ colon ++ [Re.Open] ++ Re.plus date_class ++ [Re.Close].

(** The pattern [POreference\s*:\s*] followed by the group [.*]. *)
Definition po_reference_re : list Re.atom :=
  Re.lit "POreference" ++ colon ++ rest_of_line.

(** The pattern [Order type\s*:\s*] followed by the group [.*]. *)
Definition order_type_re : list Re.atom :=
  Re.lit "Order type" ++ colon ++ rest_of_line.

(** The pattern [Contact person\s*], a parenthesised text without closing
    parenthesis inside, [\s*:\s*], followed by the group [.*]. *)
Definition contact_person_re : list Re.atom :=
  Re.lit "Contact person" ++ ws
  ++ [Re.Lit "("; Re.Star (fun c => negb (Ascii.eqb c ")")); Re.Lit ")"]
  ++ colon ++ rest_of_line.

(** One [if ... in row_val.lower(): ...] block of the header loop. *)
Definition header_field (keywords : list string) (pattern : list Re.atom)
    (column : string) (df : DataFrame) (row_idx : nat) (row_val : string)
    (data : dict) : dict :=
  if existsb (fun k => Py.contains k (Py.lower row_val)) keywords
  then match safe_extract df row_idx 0 pattern with
       | Some m => if Py.truthy m then dict_set column m data else data
       | None => data
       end
  else data.

(** The body of the header loop for one row. *)
Definition header_row (df : DataFrame) (data : dict) (row_idx : nat) : dict :=
  if bool_decide (columns df = 0%nat) then data
  else
    let row_val := str (iloc df row_idx 0) in
    let data := header_field ["reference format"] reference_format_re
                  "Reference Format No" df row_idx row_val data in
    let data := header_field ["order form number"; "order form"] order_form_re
                  "Order Form" df row_idx row_val data in
    let data := header_field ["o.f. date"; "of date"] of_date_re
                  "O.F. Date" df row_idx row_val data in
    let data := header_field ["po date"] po_date_re
                  "PO Date" df row_idx row_val data in
    let data := header_field ["poreference"; "po reference"] po_reference_re
                  "PO Reference" df row_idx row_val data in
    let data := header_field ["order type"] order_type_re
                  "Order Type" df row_idx row_val data in
    header_field ["contact person"] contact_person_re
      "Contact Person" df row_idx row_val data.

(** [range(a, b)] *)
Definition range (a b : nat) : list nat := seq a (b - a).

(** The header loop: rows [3 .. min(10, len) - 1]. *)
Definition header_scan (df : DataFrame) (data : dict) : dict :=
  foldl (header_row df) data (range 3 (Nat.min 10 (len df))).

(** [re.sub(r'^Rs\.?\s*', '', s, flags=re.IGNORECASE)]: the pattern is
    anchored at the start, so at most one prefix is removed. *)
Definition strip_rs (s : string) : string :=
  match Re.match_ (Re.lit "Rs" ++ [Re.Opt (fun c => Ascii.eqb c ".")] ++ ws
                   ++ [Re.Open; Re.Star (fun _ => true); Re.Close]) s with
  | Some rest => rest
  | None => s
  end.

(** An optional quote character (double or single) followed by the group
    [[\d,]+]. *)
Definition quantity_re : list Re.atom :=
  [Re.Opt (fun c => Ascii.eqb c "034" || Ascii.eqb c "'"); Re.Open]
  ++ Re.plus (fun c => Py.isdecimal_char c || Ascii.eqb c ",") ++ [Re.Close].

(** The value stored for a matched column. *)
Definition stored_value (matched_column details_value : string)
    (additional_value : option string) : string :=
  if Py.contains "m.r.p" (Py.lower matched_column)
  then
    match additional_value with
    | Some additional =>
        if Py.truthy additional
        then
          let mrp_clean := Py.strip (strip_rs additional) in
          let mrp_clean :=
            Re.remove_class (fun c => Ascii.eqb c "," || Py.isspace c) mrp_clean in
          if Py.truthy mrp_clean
             && negb (str_in_list (Py.upper mrp_clean)
                        ["EXPORT"; "NA"; "PHY.SAMPLE"; "TO BE CONFIRM"; "PERUNITPRICE"; ""])
          then mrp_clean else details_value
        else details_value
    | None => details_value
    end
  else if Py.contains "quantity" (Py.lower matched_column)
          || Py.contains "qty" (Py.lower matched_column)
  then
    match Re.match_ quantity_re details_value with
    | Some group1 => Py.strip (Py.remove_char "," group1)
    | None => details_value
    end
  else details_value.

(** The body of the title/details loop for one row. *)
Definition title_row (df : DataFrame) (data : dict) (row_idx : nat) : dict :=
  if bool_decide (columns df < 3)%nat then data
  else
    let title_cell := iloc df row_idx 1 in
    if notna title_cell
    then
      let title := Py.strip (str title_cell) in
      if Py.truthy title && negb (Py.isdigit title)
         && negb (str_in_list (Py.lower title) ["no."; "no"; "title"; "details"])
      then
        let details_cell := iloc df row_idx 2 in
        let details_value :=
          if notna details_cell then Py.strip (str details_cell) else "" in
        let additional_value :=
          if bool_decide (4 < columns df)%nat
          then let additional_cell := iloc df row_idx 4 in
               if notna additional_cell
               then Some (Py.strip (str additional_cell)) else None
          else None in
        match match_column_name title REQUIRED_COLUMNS with
        | Some matched_column =>
            if Py.truthy matched_column && negb (dict_in matched_column data)
            then
              if Py.truthy details_value
                 && negb (str_in_list (Py.upper details_value) ["NA"; "N/A"; ""])
              then dict_set matched_column
                     (stored_value matched_column details_value additional_value) data
              else data
            else data
        | None => data
        end
      else data
    else data.

(** The title/details loop: rows [8 .. len - 1]. *)
Definition title_scan (df : DataFrame) (data : dict) : dict :=
  foldl (title_row df) data (range 8 (len df)).

(** The record built from a sheet before the final check. *)
Definition build_record (df : DataFrame) : dict :=
  title_scan df (header_scan df []).

Definition extract_data_from_sheet (df_sheet : DataFrame)
    (file_name sheet_name : string) : option dict :=
  if empty df_sheet || bool_decide (len df_sheet < 5)%nat then None
  else
    let data := build_record df_sheet in
    if negb (dict_in "Order Form" data)
       && negb (dict_in "Reference Format No" data)
       && negb (dict_in "PO Reference" data)
    then None
    else Some data.

(** ** Processed-file ledger *)

(** The text files of the output directory: path to content, as read
    back with universal newlines. *)
Abbreviation fs := (gmap string string).

(** What the operating system answers when the ledger is written:
    [makedirs_ok dir] tells that [os.makedirs(dir, exist_ok=True)]
    returns for a directory name that is not empty, [append_ok path]
    that the file can be opened for appending and written. *)
Record system : Type := {
  makedirs_ok : string -> bool;
  append_ok : string -> bool
}.

(** [with open(path, 'a') as f: f.write(text)] when it succeeds. *)
Definition append_text (path text : string) (files : fs) : fs :=
  <[path := default "" (files !! path) +:+ text]> files.

(** [os.path.join(dir, name)] for a relative [name]. *)
Definition path_join (dir name : string) : string :=
  if negb (Py.truthy dir) then name
  else if Py.startswith "/" (String.rev dir) then dir +:+ name
  else dir +:+ "/" +:+ name.

Definition tracking_file (tracking_dir year_name : string) : string :=
  path_join tracking_dir ("." +:+ year_name +:+ "_processed.txt").

(** The lines a text file yields when iterated (universal newlines): each
    line keeps its terminator, read as a line feed; a carriage return
    followed by a line feed is one terminator. *)
Fixpoint readlines (s : string) : list string :=
  match s with
  | EmptyString => []
  | String c s' =>
      if Ascii.eqb c "010" then String "010" EmptyString :: readlines s'
      else if Ascii.eqb c "013"
      then String "010" EmptyString ::
           match s' with
           | String d s'' => if Ascii.eqb d "010" then readlines s'' else readlines s'
           | EmptyString => []
           end
      else match readlines s' with
           | [] => [String c EmptyString]
           | line :: lines => String c line :: lines
           end
  end.

Definition get_processed_files_from_tracking (year_name tracking_dir : string)
    (files : fs) : gset string :=
  match files !! tracking_file tracking_dir year_name with
  | Some content =>
      list_to_set (filter (fun line => Py.truthy line = true)
                          (Py.strip <$> readlines content))
  | None => ∅
  end.

(** [mark_file_as_processed]: [None] when the call raises, which it does
    when [os.makedirs] fails, as it always does for the empty directory
    name; a failure to open or write the file is swallowed and leaves
    the files as they are. *)
Definition mark_file_as_processed (file_name year_name tracking_dir : string)
    (os : system) (files : fs) : option fs :=
  if Py.truthy tracking_dir && makedirs_ok os tracking_dir
  then
    let tracking_file := tracking_file tracking_dir year_name in
    if append_ok os tracking_file
    then Some (append_text tracking_file (file_name +:+ String "010" EmptyString) files)
    else Some files
  else None.

(** ** File discovery *)

Definition SKIP_PATTERNS : list string :=
  ["~$"; ".ini"; ".lnk"; "desktop"; "Autosaved"; "AutoRecovered"; "Recovered";
   "INDEX"; ".tmp"].

(** [os.path.basename] for POSIX paths: the text after the last slash. *)
Fixpoint basename (p : string) : string :=
  match p with
  | EmptyString => EmptyString
  | String _ p' => if Py.contains "/" p then basename p' else p
  end.

(** [s.endswith(suffix)]: some tail of [s] is the suffix. *)
Fixpoint endswith (suffix s : string) : bool :=
  bool_decide (s = suffix)
  || match s with
     | EmptyString => false
     | String _ s' => endswith suffix s'
     end.

Definition is_valid_excel_file (file_path : string) : bool :=
  let file_name := Py.lower (basename file_path) in
  if existsb (fun pattern => Py.contains (Py.lower pattern) file_name) SKIP_PATTERNS
  then false
  else endswith ".xlsx" file_path.

(** [sorted(l)] for a list of strings: ascending code point order. *)
Definition sorted (l : list string) : list string := merge_sort String.le l.

(** [get_all_excel_files].  The directory is given by what the script
    reads of it: [exists_] is [os.path.exists(folder_path)], [walk] the
    triples [os.walk(folder_path)] yields (directory, subdirectory names,
    file names), [listdir] the entries of the folder itself, each with
    the answer of [os.path.isfile]. *)
Definition get_all_excel_files (folder_path : string) (recursive : bool)
    (exists_ : bool) (walk : list (string * list string * list string))
    (listdir : list (string * bool)) : list string :=
  if negb exists_ then []
  else if recursive
  then sorted (filter (fun file_path => is_valid_excel_file file_path = true)
                 (walk ≫= fun '(root, dirs, files) => path_join root <$> files))
  else sorted (filter (fun item_path => is_valid_excel_file item_path = true)
                 (path_join folder_path <$> (filter (fun e => e.2 = true) listdir).*1)).

(** ** Year aggregation *)

(** A table cell: [None] for Python's [None], else the stored text. *)
Abbreviation row := (list (option string)).

(** [result_data]: column name to the list of its values, in key order. *)
Abbreviation column_store := (list (string * list (option string))).

Fixpoint store_set (col : string) (vs : list (option string)) (d : column_store)
    : column_store :=
  match d with
  | [] => [(col, vs)]
  | (c, vs') :: d' =>
      if bool_decide (c = col) then (col, vs) :: d' else (c, vs') :: store_set col vs d'
  end.

(** [result_data[col].append(v)] *)
Fixpoint store_append (col : string) (v : option string) (d : column_store)
    : column_store :=
  match d with
  | [] => []
  | (c, vs) :: d' =>
      if bool_decide (c = col) then (c, vs ++ [v]) :: d'
      else (c, vs) :: store_append col v d'
  end.

(** The inner search of the projection: the value of the first item of
    the record whose key the matcher resolves to [req_col]. *)
Fixpoint find_value (req_col : string) (items : dict) : option string :=
  match items with
  | [] => None
  | (key, val) :: rest =>
      if bool_decide (match_column_name key [req_col] = Some req_col)
      then Some val
      else find_value req_col rest
  end.

Definition init_store (cols : list string) : column_store :=
  foldl (fun d col => store_set col [] d) [] cols.

Definition fill_record (d : column_store) (record : dict) : column_store :=
  foldl (fun d req_col => store_append req_col (find_value req_col record) d)
        d REQUIRED_COLUMNS.

Definition result_data (all_records : list dict) : column_store :=
  foldl fill_record (init_store REQUIRED_COLUMNS) all_records.

(** A data frame of the aggregation: column names, and the rows with
    their index labels. *)
Record Frame : Type := {
  names : list string;
  body : list (nat * row)
}.

(** [pd.DataFrame(d)] for a dictionary of equally long columns. *)
Definition frame_of_store (d : column_store) : Frame :=
  let n := match d with [] => 0%nat | (_, vs) :: _ => length vs end in
  {| names := d.*1;
     body := (fun i => (i, (fun cv => default None (cv.2 !! i)) <$> d)) <$> seq 0 n |}.

Fixpoint index_of (col : string) (cols : list string) : option nat :=
  match cols with
  | [] => None
  | c :: cols' => if bool_decide (c = col) then Some 0%nat else S <$> index_of col cols'
  end.

(** [row.get(col)], with [None] for a cell that is not [pd.notna]. *)
Definition row_get (cols : list string) (r : row) (col : string) : option string :=
  match index_of col cols with
  | Some j => default None (r !! j)
  | None => None
  end.

(** [id(row)] is the identity CPython gives the row object handed to
    [create_key].  Python keeps identities apart only for objects that are
    alive at the same time, and the rows are handed over one after the
    other, so the identity of the row at each position is a parameter
    [row_id] about which nothing is assumed. *)
Definition create_key (row_id : nat -> N) (cols : list string) (ir : nat * row)
    : string :=
  let parts :=
    omap (row_get cols ir.2) ["Order Form"; "PO Date"; "Brand Name"] in
  match parts with
  | [] => "ROW_" +:+ pretty (row_id ir.1)
  | _ => Py.join "|" parts
  end.

(** [drop_duplicates(subset=[key], keep='first')] over rows paired with
    their keys; [seen] holds the keys met so far. *)
Fixpoint drop_duplicates_go {X : Type} (seen : gset string) (l : list (string * X))
    : list X :=
  match l with
  | [] => []
  | (k, r) :: l' =>
      if bool_decide (k ∈ seen) then drop_duplicates_go seen l'
      else r :: drop_duplicates_go ({[k]} ∪ seen) l'
  end.

Definition drop_duplicates (row_id : nat -> N) (df : Frame) : Frame :=
  {| names := names df;
     body := drop_duplicates_go ∅ ((fun r => (create_key row_id (names df) r, r)) <$> body df) |}.

Definition has_date (dr : option Z * (nat * row)) : Prop := is_Some dr.1.

Definition date_le (a b : option Z * (nat * row)) : Prop :=
  match a.1, b.1 with
  | Some x, Some y => (x <= y)%Z
  | _, _ => True
  end.

(** [sort_values(by=date, na_position='last')] with the default sort
    kind: the rows with a date are put in ascending date order by a sort
    of the library that pandas does not promise to be stable, and the
    rows without a date follow in their previous order.  The order the
    library gives to rows of equal date is not fixed here: the relation
    admits every ascending arrangement, the one a run produces among
    them.  It serves statements about every outcome of a run; it does
    not tell which outcome a given input has. *)
Definition sort_values (l out : list (option Z * (nat * row))) : Prop :=
  ∃ dated, dated ≡ₚ filter has_date l
           ∧ Sorted date_le dated
           ∧ out = dated ++ filter (fun dr => ¬ has_date dr) l.

(** [df['PO Date']] *)
Definition po_date_column (df : Frame) : list (option string) :=
  (fun r => row_get (names df) r.2 "PO Date") <$> body df.

(** The date ordering of [process_year_folder].  [to_datetime] stands for
    [pd.to_datetime(column, errors='coerce')]: it gives each cell of the
    column a date or none, or fails as a whole ([None]), in which case
    the script leaves the order alone. *)
Definition sort_by_date (to_datetime : list (option string) -> option (list (option Z)))
    (df out : Frame) : Prop :=
  names out = names df ∧
  if bool_decide ("PO Date" ∈ names df)
  then match to_datetime (po_date_column df) with
       | Some sort_dates =>
           length sort_dates = length (body df) ∧
           ∃ sorted, sort_values (zip sort_dates (body df)) sorted
                     ∧ body out = sorted.*2
       | None => body out = body df
       end
  else body out = body df.

(** [df[cols]] *)
Definition select (cols : list string) (df : Frame) : Frame :=
  {| names := cols;
     body := (fun r => (r.1, row_get (names df) r.2 <$> cols)) <$> body df |}.

(** The table [process_year_folder] writes for the records it collected;
    no table is written for an empty collection. *)
Definition year_table (row_id : nat -> N)
    (to_datetime : list (option string) -> option (list (option Z)))
    (all_records : list dict) (out : Frame) : Prop :=
  all_records ≠ [] ∧
  ∃ df_sorted,
    sort_by_date to_datetime
      (drop_duplicates row_id (frame_of_store (result_data all_records))) df_sorted
    ∧ out = select REQUIRED_COLUMNS df_sorted.

(** ** The run over a year folder *)

(** [s.split(sep)] for a one-character separator. *)
Fixpoint split_on (sep : ascii) (s : string) : list string :=
  match s with
  | EmptyString => [EmptyString]
  | String c s' =>
      if Ascii.eqb c sep then EmptyString :: split_on sep s'
      else match split_on sep s' with
           | part :: parts => String c part :: parts
           | [] => [String c EmptyString]
           end
  end.

(** [s[-2:]]: the last two characters, or all of a shorter string. *)
Fixpoint last2 (s : string) : string :=
  match s with
  | EmptyString => EmptyString
  | String _ s' => if (2 <=? String.length s')%nat then last2 s' else s
  end.

(** The name under which [process_year_folder] files a year. *)
Definition output_year_name (year_name : string) : string :=
  match split_on "-" year_name with
  | [part0; part1] => part0 +:+ "-" +:+ last2 part1
  | _ => year_name
  end.

(** What opening a workbook gives: its sheets in order, each with its
    name and the frame [pd.read_excel] returns for it, [None] where
    reading the sheet raises. *)
Abbreviation workbook := (list (string * option DataFrame)).

(** The body of the sheet loop: the record a sheet adds, if any. *)
Definition sheet_record (file_name : string) (sheet : string * option DataFrame)
    : option dict :=
  match sheet.2 with
  | Some df =>
      match extract_data_from_sheet df file_name sheet.1 with
      | Some extracted => if bool_decide (extracted = []) then None else Some extracted
      | None => None
      end
  | None => None
  end.

(** The body of the file loop on the state (records collected, output
    directory).  [ExcelFile] is [None] where opening the workbook raises;
    [processed_files] is the set loaded before the loop.  A mark that
    raises is caught by the [try] of the file: the records of the file
    are kept and the output directory stays as it is. *)
Definition process_file (skip_processed : bool) (processed_files : gset string)
    (year tracking_dir : string) (ExcelFile : string -> option workbook)
    (os : system) (state : list dict * fs) (file_path : string) : list dict * fs :=
  let file_name := basename file_path in
  if skip_processed && bool_decide (file_name ∈ processed_files) then state
  else
    match ExcelFile file_path with
    | Some sheets =>
        let extracted := omap (sheet_record file_name) sheets in
        (state.1 ++ extracted,
         if (0 <? length extracted)%nat && skip_processed
         then default state.2
                (mark_file_as_processed file_name year tracking_dir os state.2)
         else state.2)
    | None => state
    end.

(** [process_year_folder] up to the end of the file loop: the records
    collected and the output directory afterwards.  [exists_] and [walk]
    describe the year folder as in [get_all_excel_files]. *)
Definition collect_records (year_folder output_dir : string) (skip_processed : bool)
    (exists_ : bool) (walk : list (string * list string * list string))
    (ExcelFile : string -> option workbook) (os : system) (files : fs)
    : list dict * fs :=
  let year_name := basename year_folder in
  let year := output_year_name year_name in
  let processed_files :=
    if skip_processed then get_processed_files_from_tracking year output_dir files
    else ∅ in
  let excel_files := get_all_excel_files year_folder true exists_ walk [] in
  foldl (process_file skip_processed processed_files year output_dir ExcelFile os)
    ([], files) excel_files.

(** ** Vocabulary of the statements *)

(** A character of a normalized label other than the separating space:
    outside the separator class and in lower case. *)
Definition word_char (c : ascii) : bool :=
  negb (sep_class c) && bool_decide (Py.lower_char c = c).

(** Words of such characters with single spaces between them;
    [after_space] tells that the previous character was a space. *)
Fixpoint spaced (after_space : bool) (s : string) : bool :=
  match s with
  | EmptyString => true
  | String c s' =>
      if Ascii.eqb c " " then negb after_space && spaced true s'
      else word_char c && spaced false s'
  end.

Fixpoint no_trailing_space (s : string) : bool :=
  match s with
  | EmptyString => true
  | String c s' =>
      match s' with
      | EmptyString => negb (Ascii.eqb c " ")
      | _ => no_trailing_space s'
      end
  end.

(** The shape of a normalized label. *)
Definition normal_form (s : string) : Prop :=
  spaced true s = true ∧ no_trailing_space s = true.

(** The stages of the matcher, stated on their own.  [src] is the source
    label and [t] a target column. *)
Definition exact_match (src t : string) : Prop :=
  normalize_text t = normalize_text src.

Definition word_match (src t : string) : Prop :=
  word_set (normalize_text src) = word_set (normalize_text t).

(** One word set is a strict subset of the other. *)
Definition subset_candidate (src t : string) : Prop :=
  let sw := word_set (normalize_text src) in
  let tw := word_set (normalize_text t) in
  sw ≠ tw ∧ (sw ⊆ tw ∨ tw ⊆ sw).

Definition score (src t : string) : nat :=
  size (word_set (normalize_text src) ∩ word_set (normalize_text t)).

(** A candidate whose score is positive and not beaten by any candidate
    among the targets. *)
Definition best_scoring (src : string) (targets : list string) (t : string) : Prop :=
  subset_candidate src t ∧ (0 < score src t)%nat
  ∧ Forall (fun u => subset_candidate src u → (score src u ≤ score src t)%nat) targets.

Global Instance exact_match_dec src t : Decision (exact_match src t).
Proof. unfold exact_match. apply _. Defined.

Global Instance word_match_dec src t : Decision (word_match src t).
Proof. unfold word_match. apply _. Defined.

Global Instance subset_candidate_dec src t : Decision (subset_candidate src t).
Proof. unfold subset_candidate. apply _. Defined.

Global Instance best_scoring_dec src targets t : Decision (best_scoring src targets t).
Proof. unfold best_scoring. apply _. Defined.

(** The priority order of the matcher, first hit winning: exact match,
    word-set match, alias, best-scoring subset candidate. *)
Definition matcher_priority (src : string) (targets : list string) : option string :=
  match head (filter (exact_match src) targets) with
  | Some t => Some t
  | None =>
      match head (filter (word_match src) targets) with
      | Some t => Some t
      | None =>
          match variations !! normalize_text src with
          | Some column => Some column
          | None => head (filter (best_scoring src targets) targets)
          end
      end
  end.

(** The same order with every strict-subset candidate admitted, whatever
    its score, and no special case for the empty label. *)
Definition best_candidate (src : string) (targets : list string) (t : string) : Prop :=
  subset_candidate src t
  ∧ Forall (fun u => subset_candidate src u → (score src u ≤ score src t)%nat) targets.

Global Instance best_candidate_dec src targets t : Decision (best_candidate src targets t).
Proof. unfold best_candidate. apply _. Defined.

Definition matcher_priority_any_score (src : string) (targets : list string)
    : option string :=
  match head (filter (exact_match src) targets) with
  | Some t => Some t
  | None =>
      match head (filter (word_match src) targets) with
      | Some t => Some t
      | None =>
          match variations !! normalize_text src with
          | Some column => Some column
          | None => head (filter (best_candidate src targets) targets)
          end
      end
  end.

(** The seven blocks of the header loop: keywords, pattern, column. *)
Definition order_form_field : list string * list Re.atom * string :=
  (["order form number"; "order form"], order_form_re, "Order Form").

Definition header_fields : list (list string * list Re.atom * string) :=
  [ (["reference format"], reference_format_re, "Reference Format No");
    order_form_field;
    (["o.f. date"; "of date"], of_date_re, "O.F. Date");
    (["po date"], po_date_re, "PO Date");
    (["poreference"; "po reference"], po_reference_re, "PO Reference");
    (["order type"], order_type_re, "Order Type");
    (["contact person"], contact_person_re, "Contact Person") ].

(** The value a row yields for a header field: the row qualifies when a
    keyword occurs in its first cell and the pattern extracts a non-empty
    text. *)
Definition header_value (f : list string * list Re.atom * string)
    (df : DataFrame) (row_idx : nat) : option string :=
  if existsb (fun k => Py.contains k (Py.lower (str (iloc df row_idx 0)))) f.1.1
  then match safe_extract df row_idx 0 f.1.2 with
       | Some m => if Py.truthy m then Some m else None
       | None => None
       end
  else None.

(** Example sheets. *)
Definition blank_rows (n : nat) : list (list cell) := replicate n [NaN].

(** Two header rows that both carry an order form number. *)
Definition two_order_forms : DataFrame :=
  {| columns := 1;
     rows := blank_rows 3
             ++ [ [Text "Order form number : OF1"];
                  [Text "Order form number : OF2"] ] |}.

(** An order form in the header and the title [Brand Name] twice. *)
Definition two_brand_names : DataFrame :=
  {| columns := 3;
     rows := blank_rows 3
             ++ [ [Text "Order form number : OF123"] ]
             ++ blank_rows 4
             ++ [ [NaN; Text "Brand Name"; Text "X"];
                  [NaN; Text "Brand Name"; Text "Y"] ] |}.

(** A filled title/details table without any of the three identifying
    fields. *)
Definition no_identifier : DataFrame :=
  {| columns := 3;
     rows := blank_rows 8
             ++ [ [NaN; Text "Brand Name"; Text "X"];
                  [NaN; Text "Generic Name"; Text "Paracetamol"];
                  [NaN; Text "Quantity"; Text "10,000 Nos"] ] |}.

(** A file content that is empty or ends with a line feed, as every
    content written by [mark_file_as_processed] alone does. *)
Fixpoint ends_with_newline (s : string) : bool :=
  match s with
  | EmptyString => true
  | String c s' =>
      match s' with
      | EmptyString => Ascii.eqb c "010"
      | _ => ends_with_newline s'
      end
  end.

Definition is_newline (c : ascii) : bool :=
  Ascii.eqb c "010" || Ascii.eqb c "013".

(** A file name the ledger can hold: not empty, no white space at either
    end, no line break inside. *)
Definition storable_name (file_name : string) : Prop :=
  file_name ≠ "" ∧ Py.strip file_name = file_name
  ∧ Py.all_chars (fun c => negb (is_newline c)) file_name = true.

(** The row of the combined table that a record is projected to. *)
Definition project_record (record : dict) : row :=
  (fun req_col => find_value req_col record) <$> REQUIRED_COLUMNS.

(** The index labels of the rows of a frame, in row order. *)
Definition labels (df : Frame) : list nat := (body df).*1.

(** The cells of a record in the three columns the duplicate key is made
    of, as the combined table shows them. *)
Definition key_cells (record : dict) : list (option string) :=
  (fun c => find_value c record) <$> ["Order Form"; "PO Date"; "Brand Name"].

(** The rows of the combined table before duplicate removal. *)
Definition combined_rows (all_records : list dict) : list (nat * row) :=
  imap (fun i record => (i, project_record record)) all_records.

(** The duplicate key of the row of a record at position [i]. *)
Definition row_key (row_id : nat -> N) (i : nat) (record : dict) : string :=
  create_key row_id REQUIRED_COLUMNS (i, project_record record).

(** The table after duplicate removal. *)
Definition deduplicated (row_id : nat -> N) (all_records : list dict) : Frame :=
  drop_duplicates row_id (frame_of_store (result_data all_records)).

(** Example records and date parsers. *)

(** A record with a per-strip price and no plain price. *)
Definition per_strip_record : dict :=
  [("Order Form", "OF123"); ("M.R.P. (Per Strip)", "10")].


(** Two orders that differ in which key field is missing. *)
Definition shifted_fields : list dict :=
  [ [("Order Form", "A"); ("Brand Name", "B")];
    [("Order Form", "A"); ("PO Date", "B")] ].

(** Two sheets identified by their reference format number only. *)
Definition keyless_records : list dict :=
  [ [("Reference Format No", "F/01")]; [("Reference Format No", "F/02")] ].





(** A date column of which nothing parses. *)
Definition all_unparseable (column : list (option string)) : option (list (option Z)) :=
  Some ((fun _ => None) <$> column).


(** The second loop of the matcher without its early return: the
    candidate it keeps. *)
Fixpoint best_from (src : string) (l : list string) (best_match : option string)
    (best_score : nat) : option string :=
  match l with
  | [] => best_match
  | t :: l' =>
      if bool_decide (subset_candidate src t) && (best_score <? score src t)%nat
      then best_from src l' (Some t) (score src t)
      else best_from src l' best_match best_score
  end.

(** A candidate above the score kept so far and not beaten within [l]. *)
Definition good_above (src : string) (bs : nat) (l : list string) (t : string) : Prop :=
  subset_candidate src t ∧ (bs < score src t)%nat
  ∧ Forall (fun u => subset_candidate src u → (score src u ≤ score src t)%nat) l.

Global Instance good_above_dec src bs l t : Decision (good_above src bs l t).
Proof. unfold good_above. apply _. Defined.

(** One block of the header loop, applied to the record. *)
Definition header_step (df : DataFrame) (r : nat) (d : dict)
    (f : list string * list Re.atom * string) : dict :=
  header_field f.1.1 f.1.2 f.2 df r (str (iloc df r 0)) d.

Global Instance date_le_dec a b : Decision (date_le a b).
Proof. unfold date_le. destruct a.1, b.1; apply _. Defined.

Definition no_slash (s : string) : Prop := Py.contains "/" s = false.

(** A line of a text file: text without line break, with or without the
    closing line feed. *)
Definition line_shape (line : string) : Prop :=
  ∃ text, Py.all_chars (fun c => negb (is_newline c)) text = true
          ∧ (line = text ∨ line = text +:+ String "010" EmptyString).

Definition no_dash (s : string) : Prop := Py.contains "-" s = false.

(** The records the sheet loop takes from one file. *)
Definition file_records (ExcelFile : string -> option workbook) (file_path : string)
    : list dict :=
  match ExcelFile file_path with
  | Some sheets => omap (sheet_record (basename file_path)) sheets
  | None => []
  end.

(** The output directory after a mark that took effect. *)
Definition marked (file_name year_name tracking_dir : string) (files : fs) : fs :=
  append_text (tracking_file tracking_dir year_name)
    (file_name +:+ String "010" EmptyString) files.

(** A mark takes effect when the tracking directory, which is not the
    empty name, can be made and the ledger file can be appended to. *)
Definition mark_takes_effect (os : system) (tracking_dir year_name : string) : bool :=
  Py.truthy tracking_dir && makedirs_ok os tracking_dir
  && append_ok os (tracking_file tracking_dir year_name).

(** The output directory after a call of [mark_file_as_processed],
    whether it returned or raised. *)
Definition after_mark (file_name year_name tracking_dir : string) (os : system)
    (files : fs) : fs :=
  default files (mark_file_as_processed file_name year_name tracking_dir os files).

(** A system on which directories can be made and files appended to. *)
Definition every_write_succeeds : system :=
  {| makedirs_ok := fun _ => true; append_ok := fun _ => true |}.


(** An order form whose table has a row titled [Qty UOM]. *)
Definition qty_uom_sheet : DataFrame :=
  {| columns := 3;
     rows := blank_rows 3
             ++ [ [Text "Order form number : OF123"] ]
             ++ blank_rows 4
             ++ [ [NaN; Text "Qty UOM"; Text "1,000 Nos"] ] |}.

(** A year folder with one workbook and a file that is none, and a reader
    that finds the sheet [two_order_forms] in every workbook. *)
Definition one_workbook_year : list (string * list string * list string) :=
  [("PO/2024-2025", [], ["orders.xlsx"; "notes.txt"])].

Definition one_sheet_workbook (file_path : string) : option workbook :=
  Some [("Sheet1", Some two_order_forms)].

(** An order form whose quantity is a lone comma. *)
Definition comma_quantity_sheet : DataFrame :=
  {| columns := 3;
     rows := blank_rows 3
             ++ [ [Text "Order form number : OF123"] ]
             ++ blank_rows 4
             ++ [ [NaN; Text "Quantity"; Text ","] ] |}.

(** A column whose value goes through the quantity clean-up. *)
Definition quantity_column (column : string) : bool :=
  Py.contains "quantity" (Py.lower column) || Py.contains "qty" (Py.lower column).

(** A value as the extractor stores it: without white space at either
    end, and empty for a quantity column at most. *)
Definition clean_value (column value : string) : Prop :=
  Py.strip value = value ∧ (value = "" → quantity_column column = true).

(** Two sheets of the same size agree on the cells the extractor reads:
    the first cell of rows 3 to 9 and cells 1, 2 and 4 of the rows from 8
    on. *)
Definition same_cells_read (df df' : DataFrame) : Prop :=
  columns df = columns df' ∧ len df = len df'
  ∧ (∀ r, (3 ≤ r < 10)%nat → iloc df r 0 = iloc df' r 0)
  ∧ (∀ r c, (8 ≤ r)%nat → c ∈ [1; 2; 4]%nat → iloc df r c = iloc df' r c).

(** The sheet [two_order_forms] under a banner in its top rows. *)
Definition two_order_forms_banner : DataFrame :=
  {| columns := 1;
     rows := [ [Text "ACME Ltd"]; [Text "Purchase order"]; [NaN] ]
             ++ [ [Text "Order form number : OF1"];
                  [Text "Order form number : OF2"] ] |}.

(** * Properties *)

(** ** Characters *)

Ltac by_cases_on_char c :=
  destruct c as [[] [] [] [] [] [] [] []]; vm_compute; (reflexivity || congruence || tauto).

Lemma lower_char_idem c : Py.lower_char (Py.lower_char c) = Py.lower_char c.
Proof. by_cases_on_char c. Qed.

Lemma isspace_lower_char c : Py.isspace (Py.lower_char c) = Py.isspace c.
Proof. by_cases_on_char c. Qed.

Lemma sep_class_lower_char c : sep_class (Py.lower_char c) = sep_class c.
Proof. by_cases_on_char c. Qed.

Lemma isspace_sep_class c : Py.isspace c = true → sep_class c = true.
Proof. by_cases_on_char c. Qed.

Lemma word_char_not_sep c : word_char c = true → sep_class c = false.
Proof. unfold word_char. destruct (sep_class c); simpl; congruence. Qed.

Lemma word_char_not_space c : word_char c = true → Py.isspace c = false.
Proof.
  intros H. apply word_char_not_sep in H.
  destruct (Py.isspace c) eqn:E; [|done].
  apply isspace_sep_class in E. congruence.
Qed.

Lemma word_char_lower c : word_char c = true → Py.lower_char c = c.
Proof.
  unfold word_char. intros [_ H]%andb_prop. by apply bool_decide_eq_true in H.
Qed.

Lemma space_eqb_sep c : Ascii.eqb c " " = true → sep_class c = true.
Proof. intros ->%Ascii.eqb_eq. reflexivity. Qed.

Lemma space_eqb_isspace c : Ascii.eqb c " " = true → Py.isspace c = true.
Proof. intros ->%Ascii.eqb_eq. reflexivity. Qed.

(** ** The normalizer *)

Lemma spaced_weaken s : spaced true s = true → spaced false s = true.
Proof.
  destruct s as [|c s]; simpl; [done|].
  destruct (Ascii.eqb c " "); simpl; [congruence|done].
Qed.

(** Replacing the separator runs of lower-case text leaves words with
    single spaces between them. *)
Lemma sub_runs_go_spaced s b :
  spaced b (Re.sub_runs_go sep_class b (Py.lower s)) = true.
Proof.
  revert b. induction s as [|c s IH]; intros b; simpl; [done|].
  rewrite sep_class_lower_char.
  destruct (sep_class c) eqn:E.
  - destruct b; simpl; [apply IH|]. apply IH.
  - simpl. destruct (Ascii.eqb (Py.lower_char c) " ") eqn:Es.
    + apply space_eqb_sep in Es. rewrite sep_class_lower_char in Es. congruence.
    + unfold word_char. rewrite sep_class_lower_char, E, lower_char_idem.
      rewrite bool_decide_eq_true_2 by done. simpl. apply IH.
Qed.

(** On such text a replacement of runs changes nothing, whenever the class
    holds the space and no word character. *)
Lemma sub_runs_go_id cls s b :
  cls " "%char = true →
  (∀ c, word_char c = true → cls c = false) →
  spaced b s = true → Re.sub_runs_go cls b s = s.
Proof.
  intros Hsp Hw. revert b. induction s as [|c s IH]; intros b H; simpl in *; [done|].
  destruct (Ascii.eqb c " ") eqn:Es.
  - apply andb_prop in H as [Hb Hs]. apply Ascii.eqb_eq in Es as ->.
    rewrite Hsp. destruct b; [done|]. by rewrite IH.
  - apply andb_prop in H as [Hc Hs]. rewrite (Hw _ Hc). by rewrite IH.
Qed.

Lemma lower_spaced s b : spaced b s = true → Py.lower s = s.
Proof.
  revert b. induction s as [|c s IH]; intros b H; simpl in *; [done|].
  destruct (Ascii.eqb c " ") eqn:Es.
  - apply andb_prop in H as [_ Hs]. apply Ascii.eqb_eq in Es as ->.
    by rewrite (IH true).
  - apply andb_prop in H as [Hc Hs]. by rewrite (word_char_lower _ Hc), (IH false).
Qed.

Lemma lstrip_spaced_id s : spaced true s = true → Py.lstrip s = s.
Proof.
  destruct s as [|c s]; simpl; [done|].
  destruct (Ascii.eqb c " "); simpl; [congruence|].
  intros [Hc _]%andb_prop. by rewrite (word_char_not_space _ Hc).
Qed.

Lemma lstrip_spaced s : spaced false s = true → spaced true (Py.lstrip s) = true.
Proof.
  destruct s as [|c s]; simpl; [done|].
  destruct (Ascii.eqb c " ") eqn:Es.
  - intros Hs. rewrite (space_eqb_isspace _ Es). simpl in Hs.
    by rewrite lstrip_spaced_id.
  - intros H. pose proof H as [Hc _]%andb_prop.
    rewrite (word_char_not_space _ Hc). simpl. by rewrite Es.
Qed.

Lemma rstrip_spaced s b : spaced b s = true → spaced b (Py.rstrip s) = true.
Proof.
  revert b. induction s as [|c s IH]; intros b H; simpl in *; [done|].
  destruct (Ascii.eqb c " ") eqn:Es.
  - apply andb_prop in H as [Hb Hs]. specialize (IH _ Hs).
    destruct (Py.rstrip s) eqn:R.
    + by rewrite (space_eqb_isspace _ Es).
    + simpl. rewrite Es, Hb. exact IH.
  - apply andb_prop in H as [Hc Hs]. specialize (IH _ Hs).
    destruct (Py.rstrip s) eqn:R.
    + rewrite (word_char_not_space _ Hc). simpl. by rewrite Es, Hc.
    + simpl. rewrite Es, Hc. exact IH.
Qed.

Lemma rstrip_no_trailing_space s : no_trailing_space (Py.rstrip s) = true.
Proof.
  induction s as [|c s IH]; simpl; [done|].
  destruct (Py.rstrip s) eqn:R.
  - destruct (Py.isspace c) eqn:E; simpl; [done|].
    destruct (Ascii.eqb c " ") eqn:Es; [|done].
    apply space_eqb_isspace in Es. congruence.
  - exact IH.
Qed.

Lemma rstrip_spaced_id s b :
  spaced b s = true → no_trailing_space s = true → Py.rstrip s = s.
Proof.
  revert b. induction s as [|c s IH]; intros b H Ht; simpl in *; [done|].
  destruct s as [|d s].
  - simpl. destruct (Ascii.eqb c " ") eqn:Es; [done|].
    apply andb_prop in H as [Hc _]. by rewrite (word_char_not_space _ Hc).
  - assert (∃ b', spaced b' (String d s) = true) as [b' Hb'].
    { destruct (Ascii.eqb c " "); apply andb_prop in H as [_ H]; eauto. }
    rewrite (IH _ Hb' Ht). done.
Qed.

Lemma strip_normal_form s : normal_form s → Py.strip s = s.
Proof.
  intros [Hs Ht]. unfold Py.strip. rewrite lstrip_spaced_id by done.
  by eapply rstrip_spaced_id.
Qed.

Lemma strip_spaced_normal_form s : spaced false s = true → normal_form (Py.strip s).
Proof.
  intros Hs. split; unfold Py.strip.
  - by apply rstrip_spaced, lstrip_spaced.
  - apply rstrip_no_trailing_space.
Qed.

Lemma normalize_text_normal_form s : normal_form (normalize_text s).
Proof.
  unfold normalize_text. destruct (Py.truthy s); simpl; [|done].
  unfold Re.sub_runs.
  rewrite (sub_runs_go_id Py.isspace _ false); first last.
  - apply sub_runs_go_spaced.
  - apply word_char_not_space.
  - reflexivity.
  - apply strip_spaced_normal_form, sub_runs_go_spaced.
Qed.

Lemma normalize_text_fixes_normal_form s : normal_form s → normalize_text s = s.
Proof.
  intros Hn. unfold normalize_text.
  destruct s as [|c s]; [done|]. cbn [Py.truthy negb].
  rewrite (strip_normal_form _ Hn).
  destruct Hn as [Hs Ht].
  rewrite (lower_spaced _ _ Hs).
  unfold Re.sub_runs.
  rewrite (sub_runs_go_id sep_class _ false);
    [|reflexivity|apply word_char_not_sep|by apply spaced_weaken].
  rewrite (sub_runs_go_id Py.isspace _ false);
    [|reflexivity|apply word_char_not_space|by apply spaced_weaken].
  by apply strip_normal_form.
Qed.

Lemma normalize_text_idempotent s :
  normalize_text (normalize_text s) = normalize_text s.
Proof. apply normalize_text_fixes_normal_form, normalize_text_normal_form. Qed.

(** The guard on empty input does not change the result of the pipeline. *)
Lemma normalize_text_unfold s :
  normalize_text s
  = Py.strip (Re.sub_runs Py.isspace (Re.sub_runs sep_class (Py.lower (Py.strip s)))).
Proof. unfold normalize_text. by destruct s. Qed.

Lemma lower_idem s : Py.lower (Py.lower s) = Py.lower s.
Proof. induction s as [|c s IH]; simpl; [done|]. by rewrite lower_char_idem, IH. Qed.

Lemma lstrip_lower s : Py.lstrip (Py.lower s) = Py.lower (Py.lstrip s).
Proof.
  induction s as [|c s IH]; simpl; [done|].
  rewrite isspace_lower_char. by destruct (Py.isspace c).
Qed.

Lemma rstrip_lower s : Py.rstrip (Py.lower s) = Py.lower (Py.rstrip s).
Proof.
  induction s as [|c s IH]; simpl; [done|].
  rewrite IH, isspace_lower_char.
  destruct (Py.rstrip s); simpl; [|done]. by destruct (Py.isspace c).
Qed.

Lemma strip_lower s : Py.strip (Py.lower s) = Py.lower (Py.strip s).
Proof. unfold Py.strip. by rewrite lstrip_lower, rstrip_lower. Qed.

Lemma sub_runs_go_lower cls b s :
  (∀ c, cls (Py.lower_char c) = cls c) →
  Re.sub_runs_go cls b (Py.lower s) = Py.lower (Re.sub_runs_go cls b s).
Proof.
  intros Hc. revert b. induction s as [|c s IH]; intros b; simpl; [done|].
  rewrite Hc. destruct (cls c); [destruct b|]; simpl; by rewrite ?IH.
Qed.

Lemma lstrip_rstrip s : Py.lstrip (Py.rstrip s) = Py.rstrip (Py.lstrip s).
Proof.
  induction s as [|c s IH]; simpl; [done|].
  destruct (Py.isspace c) eqn:E.
  - rewrite <- IH. destruct (Py.rstrip s); simpl; by rewrite ?E.
  - simpl. destruct (Py.rstrip s); simpl; by rewrite ?E.
Qed.

Lemma strip_idem s : Py.strip (Py.strip s) = Py.strip s.
Proof.
  unfold Py.strip.
  assert (Hl : ∀ t, Py.lstrip (Py.lstrip t) = Py.lstrip t).
  { induction t as [|c t IH]; simpl; [done|].
    destruct (Py.isspace c) eqn:E; [done|]. simpl. by rewrite E. }
  assert (Hr : ∀ t, Py.rstrip (Py.rstrip t) = Py.rstrip t).
  { induction t as [|c t IH]; simpl; [done|].
    destruct (Py.rstrip t) eqn:R.
    - destruct (Py.isspace c) eqn:E; simpl; by rewrite ?E.
    - simpl in *. by rewrite IH. }
  by rewrite lstrip_rstrip, Hl, Hr.
Qed.

(** The state of the replacement only decides whether a leading space is
    written. *)
Lemma lstrip_sub_runs_go_state b b' s :
  Py.lstrip (Re.sub_runs_go sep_class b s) = Py.lstrip (Re.sub_runs_go sep_class b' s).
Proof.
  destruct s as [|c s]; simpl; [done|].
  destruct (sep_class c); [|done]. by destruct b, b'.
Qed.

Lemma lstrip_sub_runs_go b s :
  Py.lstrip (Re.sub_runs_go sep_class b (Py.lstrip s))
  = Py.lstrip (Re.sub_runs_go sep_class b s).
Proof.
  revert b. induction s as [|c s IH]; intros b; simpl; [done|].
  destruct (Py.isspace c) eqn:E; [|done].
  rewrite (isspace_sep_class _ E).
  rewrite (lstrip_sub_runs_go_state b true), IH. by destruct b.
Qed.

Lemma rstrip_cons_congr c s t :
  Py.rstrip s = Py.rstrip t → Py.rstrip (String c s) = Py.rstrip (String c t).
Proof. simpl. by intros ->. Qed.

Lemma rstrip_sub_runs_go_blank b s :
  Py.rstrip s = "" → Py.rstrip (Re.sub_runs_go sep_class b s) = "".
Proof.
  revert b. induction s as [|c s IH]; intros b; simpl; [done|].
  destruct (Py.rstrip s) eqn:R; [|done].
  destruct (Py.isspace c) eqn:E; [|done]. intros _.
  rewrite (isspace_sep_class _ E).
  destruct b; simpl; by rewrite IH.
Qed.

Lemma rstrip_cons c s :
  Py.rstrip s ≠ "" → Py.rstrip (String c s) = String c (Py.rstrip s).
Proof. simpl. by destruct (Py.rstrip s). Qed.

Lemma rstrip_sub_runs_go b s :
  Py.rstrip (Re.sub_runs_go sep_class b (Py.rstrip s))
  = Py.rstrip (Re.sub_runs_go sep_class b s).
Proof.
  revert b. induction s as [|c s IH]; intros b; [done|].
  destruct (decide (Py.rstrip s = "")) as [R|R].
  - cbn [Py.rstrip]. rewrite R. destruct (Py.isspace c) eqn:E.
    + symmetry. apply rstrip_sub_runs_go_blank. simpl. by rewrite R, E.
    + simpl. destruct (sep_class c).
      * destruct b; simpl; by rewrite (rstrip_sub_runs_go_blank true s R).
      * simpl. by rewrite (rstrip_sub_runs_go_blank false s R).
  - rewrite (rstrip_cons _ _ R). cbn [Re.sub_runs_go]. destruct (sep_class c).
    + destruct b; [apply IH|]. apply rstrip_cons_congr, IH.
    + apply rstrip_cons_congr, IH.
Qed.

(** The first [strip] of the normalizer is subsumed by the last one. *)
Lemma strip_sub_runs_strip s :
  Py.strip (Re.sub_runs sep_class (Py.strip s)) = Py.strip (Re.sub_runs sep_class s).
Proof.
  unfold Py.strip, Re.sub_runs.
  rewrite <- (lstrip_rstrip (Re.sub_runs_go _ _ (Py.rstrip _))).
  by rewrite rstrip_sub_runs_go, lstrip_rstrip, lstrip_sub_runs_go.
Qed.

(** The normalizer in short: lower case, separator runs to one space,
    ends trimmed. *)
Lemma normalize_text_short s :
  normalize_text s = Py.strip (Re.sub_runs sep_class (Py.lower s)).
Proof.
  rewrite normalize_text_unfold. unfold Re.sub_runs at 1.
  rewrite (sub_runs_go_id Py.isspace _ false);
    [|reflexivity|apply word_char_not_space|apply sub_runs_go_spaced].
  by rewrite <- strip_lower, strip_sub_runs_strip.
Qed.

Lemma normalize_text_lower s : normalize_text (Py.lower s) = normalize_text s.
Proof. by rewrite !normalize_text_short, lower_idem. Qed.

Lemma normalize_text_strip s : normalize_text (Py.strip s) = normalize_text s.
Proof.
  rewrite !normalize_text_short, <- strip_lower. apply strip_sub_runs_strip.
Qed.

Lemma normalize_text_sub_runs s :
  normalize_text (Re.sub_runs sep_class s) = normalize_text s.
Proof.
  rewrite !normalize_text_short. unfold Re.sub_runs.
  rewrite <- (sub_runs_go_lower sep_class false s sep_class_lower_char).
  rewrite (sub_runs_go_id sep_class _ false);
    [done|reflexivity|apply word_char_not_sep|apply sub_runs_go_spaced].
Qed.

(** C6 (amended).  The text normalizer is idempotent, sends the empty label
    to the empty string, ignores letter case and surrounding white space,
    and treats every run of white space and of the punctuation characters
    [_ . - ( )] as one separating space: the run is collapsed, not removed.
    So [M.R.P.] normalizes to [m r p], as [m r p] does, and not to [mrp]. *)
Theorem normalize_text_properties :
  (∀ s, normalize_text (normalize_text s) = normalize_text s)
  ∧ normalize_text "" = ""
  ∧ (∀ s, normalize_text (Py.lower s) = normalize_text s)
  ∧ (∀ s, normalize_text (Py.strip s) = normalize_text s)
  ∧ (∀ s, normalize_text (Re.sub_runs sep_class s) = normalize_text s)
  ∧ normalize_text "M.R.P." = "m r p"
  ∧ normalize_text "m r p" = "m r p"
  ∧ normalize_text "mrp" = "mrp".
Proof.
  split_and!.
  - apply normalize_text_idempotent.
  - reflexivity.
  - apply normalize_text_lower.
  - apply normalize_text_strip.
  - apply normalize_text_sub_runs.
  - reflexivity.
  - reflexivity.
  - reflexivity.
Qed.

(** C6 as stated fails: the dots of [M.R.P.] become spaces, so the label
    does not normalize to the same text as [mrp]. *)
Lemma normalize_text_mrp_counterexample :
  normalize_text "M.R.P." ≠ normalize_text "mrp".
Proof. vm_compute. discriminate. Qed.

(** ** The matcher *)

Lemma filter_ext_in {A} (P Q : A → Prop) `{!∀ x, Decision (P x), !∀ x, Decision (Q x)}
    (l : list A) :
  (∀ x, x ∈ l → P x ↔ Q x) → filter P l = filter Q l.
Proof.
  induction l as [|x l IH]; intros Hext; [done|].
  rewrite !filter_cons.
  rewrite IH by (intros y Hy; apply Hext; by right).
  pose proof (Hext x (list_elem_of_here _ _)) as Hx.
  destruct (decide (P x)), (decide (Q x)); tauto || done.
Qed.

Lemma filter_nil_intro {A} (P : A → Prop) `{!∀ x, Decision (P x)} (l : list A) :
  (∀ x, x ∈ l → ¬ P x) → filter P l = [].
Proof.
  induction l as [|x l IH]; intros Hn; [done|].
  rewrite filter_cons_False by (apply Hn; by left).
  apply IH. intros y Hy. apply Hn. by right.
Qed.

Lemma filter_all {A} (P : A → Prop) `{!∀ x, Decision (P x)} (l : list A) :
  Forall P l → filter P l = l.
Proof.
  induction 1 as [|x l Hx Hl IH]; [done|]. by rewrite filter_cons_True, IH.
Qed.

Section matcher.
Variable src : string.

(** Among the candidates of a list one has the greatest score. *)
Lemma candidate_max l w :
  w ∈ l → subset_candidate src w →
  ∃ u, u ∈ l ∧ subset_candidate src u ∧ (score src w ≤ score src u)%nat
       ∧ Forall (fun v => subset_candidate src v → (score src v ≤ score src u)%nat) l.
Proof.
  revert w. induction l as [|x l IH]; intros w Hw Hcw; [by apply elem_of_nil in Hw|].
  destruct (decide (Exists (fun v => subset_candidate src v) l)) as [Hex|Hex].
  - apply Exists_exists in Hex as (v & Hv & Hcv).
    destruct (IH v Hv Hcv) as (u & Hu & Hcu & _ & Hall).
    destruct (decide (subset_candidate src x ∧ (score src u < score src x)%nat))
      as [[Hcx Hlt]|Hn].
    + exists x. split_and!; [by left|done| |].
      * apply elem_of_cons in Hw as [->|Hw]; [done|].
        rewrite Forall_forall in Hall. specialize (Hall w Hw Hcw). lia.
      * constructor; [done|]. eapply Forall_impl; [exact Hall|].
        intros z Hz Hcz. specialize (Hz Hcz). lia.
    + exists u. split_and!; [by right|done| |].
      * apply elem_of_cons in Hw as [->|Hw].
        -- destruct (decide (score src u < score src x)%nat); [tauto|lia].
        -- rewrite Forall_forall in Hall. by apply Hall.
      * constructor; [|done]. intros Hcx.
        destruct (decide (score src u < score src x)%nat); [tauto|lia].
  - assert (w = x) as ->.
    { apply elem_of_cons in Hw as [->|Hw]; [done|].
      exfalso. apply Hex, Exists_exists. eauto. }
    exists x. split_and!; [by left|done|done|].
    constructor; [done|]. apply Forall_forall. intros v Hv Hcv.
    exfalso. apply Hex, Exists_exists. eauto.
Qed.

Lemma exact_loop_spec l :
  exact_loop (normalize_text src) l = head (filter (exact_match src) l).
Proof.
  induction l as [|t l IH]; simpl; [done|].
  rewrite filter_cons. unfold exact_match at 1.
  case_bool_decide; destruct (decide _); try done.
Qed.

Lemma fuzzy_loop_spec l bm bs :
  fuzzy_loop (word_set (normalize_text src)) l bm bs
  = match head (filter (word_match src) l) with
    | Some t => inl t
    | None => inr (best_from src l bm bs)
    end.
Proof.
  revert bm bs. induction l as [|t l IH]; intros bm bs; simpl; [done|].
  rewrite filter_cons. unfold word_match at 1.
  case_bool_decide as Heq; destruct (decide _) as [Hd|Hd]; try done.
  assert (bool_decide (subset_candidate src t)
          = bool_decide (word_set (normalize_text src) ⊆ word_set (normalize_text t))
            || bool_decide (word_set (normalize_text t) ⊆ word_set (normalize_text src)))
    as ->.
  { unfold subset_candidate. repeat case_bool_decide; simpl; naive_solver. }
  unfold score.
  destruct (_ || _); simpl; [|apply IH].
  destruct (_ <? _)%nat; apply IH.
Qed.

Lemma best_from_spec l bm bs :
  best_from src l bm bs
  = match head (filter (good_above src bs l) l) with
    | Some t => Some t
    | None => bm
    end.
Proof.
  revert bm bs. induction l as [|t l IH]; intros bm bs; [done|].
  cbn [best_from].
  destruct (bool_decide (subset_candidate src t) && (bs <? score src t)%nat) eqn:E.
  - apply andb_prop in E as [Hc Hs].
    apply bool_decide_eq_true in Hc. apply Nat.ltb_lt in Hs.
    rewrite IH.
    destruct (decide (Forall (fun u => subset_candidate src u
                                       → (score src u ≤ score src t)%nat) l))
      as [Hmax|Hmax].
    + (* [t] is not beaten later on *)
      rewrite (filter_cons_True (good_above src bs (t :: l))); first last.
      { split_and!; [done..|]. constructor; [done|]. done. }
      assert (filter (good_above src (score src t) l) l = []) as ->; [|done].
      apply filter_nil_intro; intros u Hu (Hcu & Hlt & _).
      rewrite Forall_forall in Hmax. specialize (Hmax u Hu Hcu). lia.
    + (* a later candidate beats [t] *)
      apply not_Forall_Exists in Hmax; [|apply _].
      apply Exists_exists in Hmax as (w & Hw & Hbeat). simpl in Hbeat.
      assert (subset_candidate src w ∧ (score src t < score src w)%nat) as [Hcw Hsw].
      { destruct (decide (subset_candidate src w)); [|tauto]. split; [done|].
        destruct (decide (score src t < score src w)%nat); [done|].
        exfalso. apply Hbeat. lia. }
      rewrite (filter_cons_False (good_above src bs (t :: l))); first last.
      { intros (_ & _ & Hall). rewrite Forall_cons in Hall.
        destruct Hall as [_ Hall]. rewrite Forall_forall in Hall.
        specialize (Hall w Hw Hcw). lia. }
      rewrite (filter_ext_in (good_above src (score src t) l) (good_above src bs (t :: l)) l).
      { destruct (head _) eqn:Hh; [done|].
        apply head_None in Hh. exfalso.
        destruct (candidate_max l w Hw Hcw) as (u & Hu & Hcu & Hwu & Hall).
        apply (filter_nil_not_elem_of _ _ u Hh); [|done].
        split_and!; [done|lia|].
        constructor; [intros _; lia|done]. }
      intros u Hu. unfold good_above. rewrite Forall_cons. split.
      * intros (Hcu & Hlt & Hall). split_and!; [done|lia|intros _; lia|done].
      * intros (Hcu & Hlt & Htu & Hall). split_and!; [done| |done].
        rewrite Forall_forall in Hall. specialize (Hall w Hw Hcw). lia.
  - rewrite IH.
    assert (¬ (subset_candidate src t ∧ (bs < score src t)%nat)) as Hn.
    { intros [Hc Hs]. apply andb_false_iff in E as [E|E].
      - by apply bool_decide_eq_false in E.
      - apply Nat.ltb_ge in E. lia. }
    rewrite (filter_cons_False (good_above src bs (t :: l))); [|intros (? & ? & _); tauto].
    rewrite (filter_ext_in (good_above src bs l) (good_above src bs (t :: l)) l); [done|].
    intros u Hu. unfold good_above. rewrite Forall_cons. split.
    + intros (Hcu & Hlt & Hall). split_and!; [done..| |done].
      intros Hct. destruct (decide (bs < score src t)%nat); [tauto|lia].
    + intros (Hcu & Hlt & _ & Hall). done.
Qed.

End matcher.

(** C2 (amended).  For a non-empty label the matcher answers in the
    priority order exact match, word-set match, alias, best-scoring subset
    candidate, the first hit winning; a subset candidate counts only with
    a positive score, the earliest of the best-scoring ones is taken, and
    the answer is absent when no stage applies. *)
Theorem match_column_name_priority (source_name : string) (target_columns : list string) :
  source_name ≠ "" →
  match_column_name source_name target_columns
  = matcher_priority source_name target_columns.
Proof.
  intros Hne. unfold match_column_name, matcher_priority.
  destruct source_name as [|c s]; [done|]. cbn [Py.truthy negb].
  rewrite exact_loop_spec.
  destruct (head (filter (exact_match _) _)); [done|].
  rewrite fuzzy_loop_spec.
  destruct (head (filter (word_match _) _)); [done|].
  destruct (variations !! _); [done|].
  rewrite best_from_spec.
  rewrite (filter_ext_in (good_above (String c s) 0 target_columns)
             (best_scoring (String c s) target_columns)); [|done].
  by destruct (head _).
Qed.

Lemma match_column_name_priority_witness :
  "PO Date" ≠ ""
  ∧ match_column_name "PO Date" ["PO Date (Revised)"; "PO Date"]
    = matcher_priority "PO Date" ["PO Date (Revised)"; "PO Date"].
Proof. split; [done|]. by apply match_column_name_priority. Defined.

(** C2 as stated fails in two places.  A label without any word, such as a
    dash, has the empty word set, a strict subset of every column's; all
    these candidates score 0 and the matcher answers absent.  And the
    empty label is answered with absent even when a target normalizes to
    the same (empty) text. *)
Lemma match_column_name_counterexample :
  (match_column_name "-" ["Order Form"; "PO Date"] = None
   ∧ matcher_priority_any_score "-" ["Order Form"; "PO Date"] = Some "Order Form")
  ∧ (match_column_name "" ["()"] = None
     ∧ matcher_priority_any_score "" ["()"] = Some "()").
Proof. vm_compute. done. Qed.

(** ** The extractor *)

Lemma dict_get_set_eq k v d : dict_get k (dict_set k v d) = Some v.
Proof.
  induction d as [|[k' v'] d IH]; simpl.
  - by rewrite bool_decide_eq_true_2.
  - case_bool_decide as E; simpl.
    + by rewrite bool_decide_eq_true_2.
    + by rewrite bool_decide_eq_false_2.
Qed.

Lemma dict_get_set_ne k k' v d : k ≠ k' → dict_get k' (dict_set k v d) = dict_get k' d.
Proof.
  intros Hne. induction d as [|[k0 v0] d IH]; simpl.
  - by rewrite bool_decide_eq_false_2.
  - case_bool_decide as E; simpl.
    + subst k0. by rewrite !bool_decide_eq_false_2.
    + by rewrite IH.
Qed.

Lemma dict_in_get k d : dict_in k d = false ↔ dict_get k d = None.
Proof. unfold dict_in. by destruct (dict_get k d). Qed.

Lemma header_field_value f df r d :
  header_field f.1.1 f.1.2 f.2 df r (str (iloc df r 0)) d
  = match header_value f df r with
    | Some m => dict_set f.2 m d
    | None => d
    end.
Proof.
  unfold header_field, header_value.
  destruct (existsb _ _); [|done].
  destruct (safe_extract _ _ _ _) as [m|]; [|done]. by destruct (Py.truthy m).
Qed.

Lemma header_row_fields df d r :
  header_row df d r
  = if bool_decide (columns df = 0%nat) then d
    else foldl (header_step df r) d header_fields.
Proof. reflexivity. Qed.

Lemma header_value_no_columns f df r : columns df = 0%nat → header_value f df r = None.
Proof.
  intros H0. unfold header_value, safe_extract. rewrite H0.
  rewrite (bool_decide_eq_false_2 (0 < 0)%nat) by lia.
  rewrite andb_false_r. by destruct (existsb _ _).
Qed.

Section header.
Variable df : DataFrame.
Variable r : nat.

Lemma header_steps_other fs c d :
  c ∉ fs.*2 → dict_get c (foldl (header_step df r) d fs) = dict_get c d.
Proof.
  revert d. induction fs as [|f fs IH]; intros d Hc; [done|].
  rewrite fmap_cons, not_elem_of_cons in Hc. destruct Hc as [Hf Hfs].
  simpl. rewrite IH by done. unfold header_step. rewrite header_field_value.
  destruct (header_value f df r); [|done]. by apply dict_get_set_ne.
Qed.

Lemma header_steps_get fs f d :
  NoDup fs.*2 → f ∈ fs →
  dict_get f.2 (foldl (header_step df r) d fs)
  = match header_value f df r with
    | Some v => Some v
    | None => dict_get f.2 d
    end.
Proof.
  revert d. induction fs as [|g fs IH]; intros d Hnd Hf; [by apply elem_of_nil in Hf|].
  rewrite fmap_cons in Hnd. apply NoDup_cons in Hnd as [Hg Hnd].
  simpl. apply elem_of_cons in Hf as [->|Hf].
  - rewrite header_steps_other by done. unfold header_step. rewrite header_field_value.
    destruct (header_value g df r); [|done]. apply dict_get_set_eq.
  - rewrite IH by done. destruct (header_value f df r); [done|].
    unfold header_step. rewrite header_field_value.
    destruct (header_value g df r); [|done].
    apply dict_get_set_ne. intros Heq. apply Hg. rewrite Heq.
    by apply list_elem_of_fmap_2.
Qed.

End header.

Lemma header_fields_NoDup : NoDup header_fields.*2.
Proof. apply (bool_decide_unpack _). by vm_compute. Qed.

Lemma header_row_get df d r f :
  f ∈ header_fields →
  dict_get f.2 (header_row df d r)
  = match header_value f df r with
    | Some v => Some v
    | None => dict_get f.2 d
    end.
Proof.
  intros Hf. rewrite header_row_fields. case_bool_decide as H0.
  - by rewrite header_value_no_columns.
  - by apply header_steps_get; [apply header_fields_NoDup|].
Qed.

Lemma last_snoc_option {A} (l : list A) (o : option A) :
  last (l ++ option_list o) = match o with Some x => Some x | None => last l end.
Proof.
  destruct o as [x|]; simpl.
  - apply last_snoc.
  - by rewrite app_nil_r.
Qed.

(** After the header loop over any rows, a field holds the value of the
    last row that qualified. *)
Lemma header_rows_get df d l f :
  f ∈ header_fields →
  dict_get f.2 (foldl (header_row df) d l)
  = match last (omap (header_value f df) l) with
    | Some v => Some v
    | None => dict_get f.2 d
    end.
Proof.
  intros Hf. induction l as [|r l IH] using rev_ind; [done|].
  rewrite foldl_app. simpl. rewrite header_row_get by done.
  rewrite omap_app. simpl.
  destruct (header_value f df r) as [v|]; simpl.
  - by rewrite last_snoc.
  - by rewrite app_nil_r.
Qed.

(** One step of the title loop leaves the record alone or stores a value
    under a column the record does not hold yet. *)
Lemma title_row_cases df d r :
  title_row df d r = d
  ∨ ∃ column value, dict_in column d = false ∧ title_row df d r = dict_set column value d.
Proof.
  unfold title_row.
  destruct (bool_decide (columns df < 3)%nat); [by left|].
  destruct (notna (iloc df r 1)); [|by left].
  destruct (_ && _ && _); [|by left].
  destruct (match_column_name _ _) as [column|]; [|by left].
  destruct (Py.truthy column && negb (dict_in column d)) eqn:E; [|by left].
  match goal with
  | |- context [if ?c then dict_set _ _ _ else _] => destruct c; [|by left]
  end.
  right. eexists _, _. split; [|reflexivity].
  apply andb_prop in E as [_ E]. by apply negb_true_iff in E.
Qed.

Lemma title_row_keeps df d r k v :
  dict_get k d = Some v → dict_get k (title_row df d r) = Some v.
Proof.
  intros Hk. destruct (title_row_cases df d r) as [->|(c & x & Hc & ->)]; [done|].
  rewrite dict_get_set_ne; [done|]. intros ->.
  apply dict_in_get in Hc. congruence.
Qed.

Lemma title_rows_keep df d l k v :
  dict_get k d = Some v → dict_get k (foldl (title_row df) d l) = Some v.
Proof.
  revert d. induction l as [|r l IH]; intros d Hk; [done|].
  simpl. by apply IH, title_row_keeps.
Qed.

(** C3 (amended).  In the header scan the last qualifying row of a field
    is kept: after the loop each header field holds the value of the last
    row, among rows 3 to 9, whose first cell has the field's keyword and
    yields a value under the field's pattern; later qualifying rows
    overwrite earlier ones, and the title scan leaves that value in the
    extracted record. *)
Theorem header_scan_last_row_wins (df : DataFrame) :
  Forall (fun f =>
            let qualifying := omap (header_value f df) (range 3 (Nat.min 10 (len df))) in
            dict_get f.2 (header_scan df []) = last qualifying
            ∧ ∀ v, last qualifying = Some v → dict_get f.2 (build_record df) = Some v)
         header_fields.
Proof.
  apply Forall_forall. intros f Hf. cbn zeta.
  assert (dict_get f.2 (header_scan df [])
          = last (omap (header_value f df) (range 3 (Nat.min 10 (len df))))) as Hscan.
  { unfold header_scan. rewrite header_rows_get by done. by destruct (last _). }
  split; [done|]. intros v Hv. unfold build_record, title_scan.
  apply title_rows_keep. by rewrite Hscan.
Qed.

Lemma header_scan_last_row_wins_witness :
  omap (header_value order_form_field two_order_forms) (range 3 (Nat.min 10 (len two_order_forms)))
  = ["OF1"; "OF2"]
  ∧ dict_get "Order Form" (build_record two_order_forms) = Some "OF2".
Proof.
  split; [by vm_compute|].
  pose proof (header_scan_last_row_wins two_order_forms) as H.
  apply (Forall_lookup_1 _ _ 1 order_form_field) in H; [|reflexivity].
  apply (proj2 H). by vm_compute.
Defined.

(** C3 as stated fails: rows 3 and 4 both qualify for the order form, and
    the extracted record holds the value of the later row. *)
Lemma header_scan_first_row_counterexample :
  header_value order_form_field two_order_forms 3 = Some "OF1"
  ∧ header_value order_form_field two_order_forms 4 = Some "OF2"
  ∧ extract_data_from_sheet two_order_forms "orders.xlsx" "Sheet1"
    = Some [("Order Form", "OF2")].
Proof. by vm_compute. Qed.

(** C4.  The extractor answers absent unless the record it built holds at
    least one of Order Form, Reference Format No and PO Reference: a
    returned record is the built one and holds one of the three, and a
    built record with none of them is discarded whatever else it holds. *)
Theorem extract_acceptance_gate (df : DataFrame) (file_name sheet_name : string) :
  (∀ data, extract_data_from_sheet df file_name sheet_name = Some data →
           data = build_record df
           ∧ (dict_in "Order Form" data = true
              ∨ dict_in "Reference Format No" data = true
              ∨ dict_in "PO Reference" data = true))
  ∧ (dict_in "Order Form" (build_record df) = false →
     dict_in "Reference Format No" (build_record df) = false →
     dict_in "PO Reference" (build_record df) = false →
     extract_data_from_sheet df file_name sheet_name = None).
Proof.
  unfold extract_data_from_sheet. split.
  - intros data. destruct (_ || _); [done|].
    destruct (dict_in "Order Form" _) eqn:E1; simpl.
    { intros [= <-]. rewrite E1. auto. }
    destruct (dict_in "Reference Format No" _) eqn:E2; simpl.
    { intros [= <-]. rewrite E2. auto. }
    destruct (dict_in "PO Reference" _) eqn:E3; simpl; [|done].
    intros [= <-]. rewrite E3. auto.
  - intros -> -> ->. by destruct (_ || _).
Qed.

Lemma extract_acceptance_gate_witness :
  build_record no_identifier
  = [("Brand Name", "X"); ("Generic Name", "Paracetamol"); ("Quantity", "10000")]
  ∧ extract_data_from_sheet no_identifier "orders.xlsx" "Sheet1" = None.
Proof.
  split; [by vm_compute|].
  apply (proj2 (extract_acceptance_gate no_identifier "orders.xlsx" "Sheet1"));
    by vm_compute.
Defined.

(** C7.  In the title/details scan the first occurrence of a column wins:
    once the record holds a value for a column, no later row of the scan
    changes it, whatever title and details the row carries. *)
Theorem title_scan_first_occurrence_wins (df : DataFrame) (data : dict)
    (before after : list nat) (column value : string) :
  dict_get column (foldl (title_row df) data before) = Some value →
  dict_get column (foldl (title_row df) data (before ++ after)) = Some value.
Proof.
  intros Hbefore. rewrite foldl_app.
  generalize dependent (foldl (title_row df) data before).
  induction after as [|r after IH]; intros held Hheld; [done|].
  cbn [foldl]. apply IH.
  destruct (title_row_cases df held r) as [->|(c & x & Hfree & ->)]; [done|].
  rewrite dict_get_set_ne; [done|].
  intros ->. apply dict_in_get in Hfree. congruence.
Qed.

Lemma title_scan_first_occurrence_wins_witness :
  dict_get "Brand Name" (foldl (title_row two_brand_names) (header_scan two_brand_names []) [8])
  = Some "X"
  ∧ dict_get "Brand Name" (build_record two_brand_names) = Some "X".
Proof.
  split; [by vm_compute|].
  change (build_record two_brand_names)
    with (foldl (title_row two_brand_names) (header_scan two_brand_names []) ([8] ++ [9])).
  apply title_scan_first_occurrence_wins. by vm_compute.
Defined.

(** ** The ledger *)

Lemma string_app_cons c (a b : string) : String c a +:+ b = String c (a +:+ b).
Proof. reflexivity. Qed.

Lemma string_app_assoc (a b c : string) : (a +:+ b) +:+ c = a +:+ b +:+ c.
Proof.
  induction a as [|x a IH]; [done|]. by rewrite !string_app_cons, IH.
Qed.

Lemma readlines_cons c s :
  readlines (String c s)
  = if Ascii.eqb c "010" then String "010" EmptyString :: readlines s
    else if Ascii.eqb c "013"
    then String "010" EmptyString ::
         match s with
         | String d s' => if Ascii.eqb d "010" then readlines s' else readlines s
         | EmptyString => []
         end
    else match readlines s with
         | [] => [String c EmptyString]
         | line :: lines => String c line :: lines
         end.
Proof. reflexivity. Qed.

Lemma readlines_nonempty s : s ≠ "" → readlines s ≠ [].
Proof.
  destruct s as [|c s]; [done|]. intros _. simpl.
  destruct (Ascii.eqb c "010"); [done|].
  destruct (Ascii.eqb c "013"); [done|].
  by destruct (readlines s).
Qed.

Lemma ends_with_newline_tail c d s :
  ends_with_newline (String c (String d s)) = true →
  ends_with_newline (String d s) = true.
Proof. done. Qed.

Lemma ends_with_newline_tail2 c d s :
  ends_with_newline (String c (String d s)) = true → ends_with_newline s = true.
Proof. simpl. destruct s; [done|]. done. Qed.

(** Reading a content that ends with a line feed, followed by more text,
    yields the lines of the content and then the lines of the text. *)
Lemma readlines_app old rest :
  ends_with_newline old = true →
  readlines (old +:+ rest) = readlines old ++ readlines rest.
Proof.
  remember (String.length old) as n eqn:Hn. revert old Hn.
  induction n as [n IH] using lt_wf_ind. intros old Hn Hold.
  destruct old as [|c old]; [done|].
  assert (∀ t, (String.length t < n)%nat → ends_with_newline t = true →
               readlines (t +:+ rest) = readlines t ++ readlines rest) as IH'.
  { intros t Ht. by apply (IH (String.length t)). }
  destruct old as [|d old].
  - simpl in Hold. apply Ascii.eqb_eq in Hold as ->. done.
  - pose proof (ends_with_newline_tail _ _ _ Hold) as Hold1.
    pose proof (ends_with_newline_tail2 _ _ _ Hold) as Hold2.
    assert (String.length (String d old) < n)%nat as Hl1 by (subst n; simpl; lia).
    assert (String.length old < n)%nat as Hl2 by (subst n; simpl; lia).
    pose proof (IH' _ Hl1 Hold1) as IH1. pose proof (IH' _ Hl2 Hold2) as IH2.
    pose proof (readlines_nonempty (String d old)) as Hne.
    rewrite string_app_cons, !(readlines_cons c).
    destruct (Ascii.eqb c "010"); [by rewrite IH1|].
    destruct (Ascii.eqb c "013").
    + rewrite string_app_cons. destruct (Ascii.eqb d "010").
      * by rewrite IH2.
      * rewrite <- string_app_cons. by rewrite IH1.
    + rewrite IH1. destruct (readlines (String d old)); [by destruct Hne|done].
Qed.

Lemma readlines_single_line s :
  Py.all_chars (fun c => negb (is_newline c)) s = true →
  readlines (s +:+ String "010" EmptyString) = [s +:+ String "010" EmptyString].
Proof.
  induction s as [|c s IH]; [done|]. rewrite string_app_cons. simpl.
  intros [Hc Hs]%andb_prop. rewrite (IH Hs).
  unfold is_newline in Hc. apply negb_true_iff, orb_false_iff in Hc as [-> ->]. done.
Qed.

Lemma lstrip_length s : (String.length (Py.lstrip s) ≤ String.length s)%nat.
Proof. induction s as [|c s IH]; simpl; [done|]. destruct (Py.isspace c); simpl; lia. Qed.

Lemma rstrip_length s : (String.length (Py.rstrip s) ≤ String.length s)%nat.
Proof.
  induction s as [|c s IH]; simpl; [done|].
  destruct (Py.rstrip s); simpl in *; [destruct (Py.isspace c); simpl; lia|lia].
Qed.

Lemma strip_fixed_lstrip s : Py.strip s = s → Py.lstrip s = s.
Proof.
  unfold Py.strip. intros Hs. destruct s as [|c s]; [done|]. simpl in *.
  destruct (Py.isspace c); [|done].
  pose proof (rstrip_length (Py.lstrip s)). pose proof (lstrip_length s).
  rewrite Hs in *. simpl in *. lia.
Qed.

Lemma rstrip_snoc_space s c : Py.isspace c = true →
  Py.rstrip (s +:+ String c EmptyString) = Py.rstrip s.
Proof.
  intros Hc. induction s as [|d s IH]; [by simpl; rewrite Hc|].
  rewrite string_app_cons. simpl. by rewrite IH.
Qed.

(** A stored name is read back from its line. *)
Lemma strip_line file_name :
  storable_name file_name → Py.strip (file_name +:+ String "010" EmptyString) = file_name.
Proof.
  intros (Hne & Hs & _). pose proof (strip_fixed_lstrip _ Hs) as Hl.
  unfold Py.strip in *. rewrite Hl in Hs.
  destruct file_name as [|c s]; [done|]. simpl in Hl.
  change (String c s +:+ String "010" EmptyString)
    with (String c (s +:+ String "010" EmptyString)).
  cbn [Py.lstrip]. destruct (Py.isspace c) eqn:E.
  - pose proof (lstrip_length s). rewrite Hl in *. simpl in *. lia.
  - change (String c (s +:+ String "010" EmptyString))
      with (String c s +:+ String "010" EmptyString).
    by rewrite rstrip_snoc_space.
Qed.

(** What the ledger holds after a mark. *)
Lemma ledger_after_mark file_name year_name tracking_dir files :
  (match files !! tracking_file tracking_dir year_name with
   | Some old => ends_with_newline old = true
   | None => True
   end) →
  storable_name file_name →
  get_processed_files_from_tracking year_name tracking_dir
    (marked file_name year_name tracking_dir files)
  = {[file_name]} ∪ get_processed_files_from_tracking year_name tracking_dir files.
Proof.
  intros Hold Hname.
  unfold get_processed_files_from_tracking, marked, append_text.
  rewrite lookup_insert_eq.
  assert (∀ old, ends_with_newline old = true →
    (list_to_set (filter (fun line => Py.truthy line = true)
       (Py.strip <$> readlines (old +:+ file_name +:+ String "010" EmptyString)))
       : gset string)
    = {[file_name]} ∪ list_to_set (filter (fun line => Py.truthy line = true)
                                          (Py.strip <$> readlines old))) as Hgen.
  { intros old Ho. rewrite readlines_app by done.
    rewrite readlines_single_line by apply Hname.
    rewrite fmap_app, filter_app, list_to_set_app_L. simpl.
    rewrite strip_line by done.
    rewrite filter_cons_True by (destruct Hname as [Hne _]; by destruct file_name).
    set_solver. }
  destruct (files !! tracking_file tracking_dir year_name) as [old|]; simpl.
  - by apply Hgen.
  - rewrite (Hgen "" eq_refl). set_solver.
Qed.

Lemma ends_with_newline_snoc s :
  ends_with_newline (s +:+ String "010" EmptyString) = true.
Proof.
  induction s as [|c s IH]; [done|]. rewrite string_app_cons.
  destruct s; [done|]. exact IH.
Qed.

(** Every mark that takes effect leaves the ledger file ending with a
    line feed. *)
Lemma mark_file_as_processed_complete file_name year_name tracking_dir (files : fs) :
  ∃ content,
    marked file_name year_name tracking_dir files
      !! tracking_file tracking_dir year_name = Some content
    ∧ ends_with_newline content = true.
Proof.
  unfold marked, append_text. eexists. rewrite lookup_insert_eq. split; [done|].
  rewrite <- string_app_assoc. apply ends_with_newline_snoc.
Qed.


Lemma after_mark_cases file_name year_name tracking_dir os files :
  after_mark file_name year_name tracking_dir os files
  = if mark_takes_effect os tracking_dir year_name
    then marked file_name year_name tracking_dir files
    else files.
Proof.
  unfold after_mark, mark_takes_effect, mark_file_as_processed.
  destruct (_ && _); [|done]. by destruct (append_ok _ _).
Qed.

(** With the empty name as tracking directory the call raises, whatever
    the system answers: [os.makedirs] refuses the empty path. *)
Lemma mark_file_as_processed_empty_dir file_name year_name os files :
  mark_file_as_processed file_name year_name "" os files = None.
Proof. reflexivity. Qed.




(** ** Projection onto the required columns *)

Lemma REQUIRED_COLUMNS_NoDup : NoDup REQUIRED_COLUMNS.
Proof. apply (bool_decide_unpack _). by vm_compute. Qed.

Lemma REQUIRED_COLUMNS_length : length REQUIRED_COLUMNS = 86%nat.
Proof. reflexivity. Qed.

Lemma store_set_fresh c vs (d : column_store) :
  c ∉ d.*1 → store_set c vs d = d ++ [(c, vs)].
Proof.
  induction d as [|[c' vs'] d IH]; simpl; [done|].
  rewrite not_elem_of_cons. intros [Hne Hd].
  rewrite bool_decide_eq_false_2 by done. by rewrite IH.
Qed.

Lemma init_store_from (d0 : column_store) cols :
  NoDup (d0.*1 ++ cols) →
  foldl (fun d col => store_set col [] d) d0 cols
  = d0 ++ ((fun c => (c, [])) <$> cols).
Proof.
  revert d0. induction cols as [|c cols IH]; intros d0 Hnd; simpl.
  - by rewrite app_nil_r.
  - apply NoDup_app in Hnd as (Hd0 & Hdisj & Hcols).
    rewrite store_set_fresh; [|intros Hc; apply (Hdisj c Hc); by left].
    rewrite IH; [by rewrite <- app_assoc|].
    rewrite fmap_app. simpl. rewrite <- app_assoc. simpl.
    apply NoDup_app. split_and!; [done| |done].
    intros x Hx. by apply Hdisj.
Qed.

Lemma init_store_spec cols :
  NoDup cols → init_store cols = (fun c => (c, [])) <$> cols.
Proof. intros Hnd. unfold init_store. by rewrite init_store_from. Qed.

Lemma store_append_at (pre post : column_store) c vs v :
  c ∉ pre.*1 →
  store_append c v (pre ++ (c, vs) :: post) = pre ++ (c, vs ++ [v]) :: post.
Proof.
  induction pre as [|[c' vs'] pre IH]; simpl.
  - intros _. by rewrite bool_decide_eq_true_2.
  - rewrite not_elem_of_cons. intros [Hne Hpre].
    rewrite bool_decide_eq_false_2 by done. by rewrite IH.
Qed.

Section fill.
Variable F : string → list (option string).
Variable g : string → option string.

Lemma fill_from pre cols :
  NoDup (pre ++ cols) →
  foldl (fun d c => store_append c (g c) d)
        (((fun c => (c, F c ++ [g c])) <$> pre) ++ ((fun c => (c, F c)) <$> cols)) cols
  = (fun c => (c, F c ++ [g c])) <$> (pre ++ cols).
Proof.
  revert pre. induction cols as [|c cols IH]; intros pre Hnd; simpl.
  - by rewrite !app_nil_r.
  - rewrite store_append_at; first last.
    { rewrite <- list_fmap_compose. simpl. rewrite list_fmap_id.
      apply NoDup_app in Hnd as (_ & Hdisj & _).
      intros Hc. apply (Hdisj c Hc). by left. }
    specialize (IH (pre ++ [c])). rewrite <- !app_assoc in IH. simpl in IH.
    rewrite fmap_app in IH. simpl in IH. rewrite <- app_assoc in IH. simpl in IH.
    by apply IH.
Qed.

Lemma fill_spec cols :
  NoDup cols →
  foldl (fun d c => store_append c (g c) d) ((fun c => (c, F c)) <$> cols) cols
  = (fun c => (c, F c ++ [g c])) <$> cols.
Proof. intros Hnd. exact (fill_from [] cols Hnd). Qed.

End fill.

Lemma result_data_spec all_records :
  result_data all_records
  = (fun c => (c, (find_value c) <$> all_records)) <$> REQUIRED_COLUMNS.
Proof.
  unfold result_data.
  induction all_records as [|record all_records IH] using rev_ind.
  - cbn [foldl]. apply init_store_spec, REQUIRED_COLUMNS_NoDup.
  - rewrite foldl_app. cbn [foldl]. rewrite IH. unfold fill_record.
    rewrite (fill_spec (fun c => find_value c <$> all_records)
               (fun c => find_value c record) _ REQUIRED_COLUMNS_NoDup).
    apply list_fmap_ext. intros _ c _. by rewrite fmap_app.
Qed.

(** The frame built from the collected records: the required columns, and
    for each record, in input order, its projection. *)
Lemma frame_of_records all_records :
  frame_of_store (result_data all_records)
  = {| names := REQUIRED_COLUMNS;
       body := imap (fun i record => (i, project_record record)) all_records |}.
Proof.
  rewrite result_data_spec. unfold frame_of_store. f_equal.
  change (match _ with [] => 0%nat | (_, vs) :: _ => length vs end)
    with (length (find_value "Folder" <$> all_records)).
  rewrite length_fmap. apply list_eq. intros i.
  rewrite list_lookup_fmap, list_lookup_imap.
  destruct (all_records !! i) as [record|] eqn:Hi.
  - rewrite lookup_seq_lt by (by eapply lookup_lt_Some). cbn [fmap option_fmap option_map].
    f_equal. f_equal.
    unfold project_record. rewrite <- list_fmap_compose.
    apply list_fmap_ext. intros _ c _. simpl.
    by rewrite list_lookup_fmap, Hi.
  - rewrite lookup_seq_ge; [done|]. by apply lookup_ge_None.
Qed.

(** ** Duplicate removal *)

Section dedup.
Context {X : Type}.



Lemma drop_duplicates_go_sublist seen (l : list (string * X)) :
  drop_duplicates_go seen l `sublist_of` l.*2.
Proof.
  revert seen. induction l as [|[k x] l IH]; intros seen; simpl; [done|].
  case_bool_decide.
  - by apply sublist_cons.
  - by apply sublist_skip.
Qed.




End dedup.

(** ** Ordering and column selection *)

Lemma sort_values_perm l out : sort_values l out → out ≡ₚ l.
Proof.
  intros (dated & Hperm & _ & ->). rewrite Hperm.
  apply (filter_app_complement has_date).
Qed.

Lemma sort_by_date_perm to_datetime df out :
  sort_by_date to_datetime df out → names out = names df ∧ body out ≡ₚ body df.
Proof.
  intros [Hnames Hbody]. split; [done|].
  case_bool_decide; [|by rewrite Hbody].
  match type of Hbody with
  | match ?x with _ => _ end => destruct x as [sort_dates|]
  end; [|by rewrite Hbody].
  destruct Hbody as (Hlen & sorted & Hsort & Hout).
  apply sort_values_perm in Hsort. rewrite Hout, Hsort.
  rewrite snd_zip; [done|lia].
Qed.

Lemma index_of_lookup cols j c :
  NoDup cols → cols !! j = Some c → index_of c cols = Some j.
Proof.
  revert j. induction cols as [|c' cols IH]; intros j Hnd Hj; [done|].
  apply NoDup_cons in Hnd as [Hc' Hnd]. simpl.
  destruct j as [|j]; simpl in Hj.
  - injection Hj as ->. by rewrite bool_decide_eq_true_2.
  - rewrite bool_decide_eq_false_2.
    + by rewrite (IH j).
    + intros ->. apply Hc'. by eapply list_elem_of_lookup_2.
Qed.

Lemma row_get_lookup cols (r : row) j c :
  NoDup cols → cols !! j = Some c → row_get cols r c = default None (r !! j).
Proof. intros Hnd Hj. unfold row_get. by rewrite (index_of_lookup _ j). Qed.

(** Selecting the columns a frame already has, in their order, changes no
    row. *)
Lemma select_row_id cols (r : row) :
  NoDup cols → length r = length cols → row_get cols r <$> cols = r.
Proof.
  intros Hnd Hlen. apply list_eq. intros j. rewrite list_lookup_fmap.
  destruct (cols !! j) as [c|] eqn:Hj; simpl.
  - rewrite (row_get_lookup _ _ j) by done.
    destruct (r !! j) as [x|] eqn:Hr; [done|].
    apply lookup_ge_None in Hr. apply lookup_lt_Some in Hj. lia.
  - symmetry. apply lookup_ge_None. apply lookup_ge_None in Hj. lia.
Qed.

Lemma project_record_length record : length (project_record record) = 86%nat.
Proof. unfold project_record. by rewrite length_fmap. Qed.

Lemma project_record_lookup record j c :
  REQUIRED_COLUMNS !! j = Some c → project_record record !! j = Some (find_value c record).
Proof. intros Hj. unfold project_record. by rewrite list_lookup_fmap, Hj. Qed.

Lemma row_get_project record c :
  c ∈ REQUIRED_COLUMNS →
  row_get REQUIRED_COLUMNS (project_record record) c = find_value c record.
Proof.
  intros (j & Hj)%list_elem_of_lookup_1.
  rewrite (row_get_lookup _ _ j) by (apply REQUIRED_COLUMNS_NoDup || done).
  by rewrite (project_record_lookup _ _ c).
Qed.

(** ** The combined table *)


Lemma combined_rows_elem all_records i r :
  (i, r) ∈ combined_rows all_records
  ↔ ∃ record, all_records !! i = Some record ∧ r = project_record record.
Proof.
  unfold combined_rows. rewrite elem_of_lookup_imap. split.
  - intros (i' & record & [= -> ->] & Hi). eauto.
  - intros (record & Hi & ->). eauto.
Qed.



Lemma deduplicated_spec row_id all_records :
  deduplicated row_id all_records
  = {| names := REQUIRED_COLUMNS;
       body := drop_duplicates_go ∅
                 ((fun r => (create_key row_id REQUIRED_COLUMNS r, r))
                    <$> combined_rows all_records) |}.
Proof. unfold deduplicated. by rewrite frame_of_records. Qed.

Lemma deduplicated_rows row_id all_records :
  body (deduplicated row_id all_records) `sublist_of` combined_rows all_records.
Proof.
  rewrite deduplicated_spec. simpl.
  etrans; [apply drop_duplicates_go_sublist|].
  rewrite <- list_fmap_compose. by rewrite list_fmap_id.
Qed.

(** What a year run writes: the required columns, and the rows that are
    left after duplicate removal, in some order. *)
Lemma find_value_None c record :
  (∀ key val, (key, val) ∈ record → match_column_name key [c] ≠ Some c) →
  find_value c record = None.
Proof.
  induction record as [|[key val] record IH]; intros H; simpl; [done|].
  rewrite bool_decide_eq_false_2 by (apply (H key val); left).
  apply IH. intros k v Hkv. apply (H k v). by right.
Qed.

Lemma year_table_unfold row_id to_datetime all_records out :
  year_table row_id to_datetime all_records out →
  ∃ df_sorted,
    sort_by_date to_datetime (deduplicated row_id all_records) df_sorted
    ∧ names out = REQUIRED_COLUMNS ∧ body out = body df_sorted.
Proof.
  intros (_ & df_sorted & Hsort & ->). exists df_sorted. split; [done|].
  split; [done|].
  apply sort_by_date_perm in Hsort as [Hnames Hbody].
  fold (deduplicated row_id all_records) in *.
  rewrite deduplicated_spec in Hnames. simpl in Hnames.
  unfold select. cbn [body].
  rewrite (list_fmap_ext _ id (body df_sorted)); [by rewrite list_fmap_id|].
  intros _ [i r] Hir%list_elem_of_lookup_2. cbn [fst snd id]. f_equal.
  rewrite Hnames. apply select_row_id; [apply REQUIRED_COLUMNS_NoDup|].
  rewrite Hbody in Hir.
  eapply elem_of_sublist in Hir; [|apply deduplicated_rows].
  apply combined_rows_elem in Hir as (record & _ & ->).
  apply project_record_length.
Qed.

Lemma year_table_rows row_id to_datetime all_records out :
  year_table row_id to_datetime all_records out →
  names out = REQUIRED_COLUMNS
  ∧ body out ≡ₚ body (deduplicated row_id all_records).
Proof.
  intros (df_sorted & Hsort & Hnames & ->)%year_table_unfold.
  split; [done|]. by apply sort_by_date_perm in Hsort as [_ ?].
Qed.


(** A run in which no date parses writes the deduplicated rows as they
    stand. *)
Lemma sort_by_date_unparseable df : sort_by_date all_unparseable df df.
Proof.
  split; [done|]. case_bool_decide; [|done].
  unfold all_unparseable. split.
  { unfold po_date_column. by rewrite !length_fmap. }
  exists (zip ((fun _ => None) <$> po_date_column df) (body df)).
  assert (Forall (fun dr : option Z * (nat * row) => ¬ has_date dr)
            (zip ((fun _ : option string => @None Z) <$> po_date_column df) (body df)))
    as Hall.
  { apply Forall_forall. intros [d r] Hin%elem_of_zip_l.
    apply list_elem_of_fmap in Hin as (? & -> & _).
    unfold has_date. simpl. by intros [? ?]. }
  split.
  - exists []. split_and!.
    + symmetry. apply Permutation_nil_r. apply filter_nil_intro.
      intros x Hx Hd. rewrite Forall_forall in Hall. by apply (Hall x Hx).
    + constructor.
    + simpl. symmetry. by apply filter_all.
  - rewrite snd_zip; [done|]. unfold po_date_column. by rewrite !length_fmap.
Qed.

Lemma year_table_unparseable row_id all_records :
  all_records ≠ [] →
  year_table row_id all_unparseable all_records
    (select REQUIRED_COLUMNS (deduplicated row_id all_records)).
Proof.
  intros Hne. split; [done|]. exists (deduplicated row_id all_records).
  split; [apply sort_by_date_unparseable|done].
Qed.

(** C1 (amended).  Every table a year run writes has exactly 86 columns,
    whose names and order are the required columns, whatever fields the
    records hold.  Each row is the projection of one input record: its
    cell in a column is the value of the first field of the record that
    the matcher resolves to that column, and a record none of whose
    fields the matcher resolves to a column has an empty cell there. *)
Theorem year_table_columns (row_id : nat → N)
    (to_datetime : list (option string) → option (list (option Z)))
    (all_records : list dict) (out : Frame) :
  year_table row_id to_datetime all_records out →
  names out = REQUIRED_COLUMNS
  ∧ length (names out) = 86%nat
  ∧ ∀ i r, (i, r) ∈ body out →
      ∃ record, all_records !! i = Some record
        ∧ length r = 86%nat
        ∧ ∀ j c, REQUIRED_COLUMNS !! j = Some c →
            r !! j = Some (find_value c record)
            ∧ ((∀ key val, (key, val) ∈ record → match_column_name key [c] ≠ Some c)
               → r !! j = Some None).
Proof.
  intros [Hnames Hbody]%year_table_rows. split; [done|].
  split; [by rewrite Hnames|].
  intros i r Hir. rewrite Hbody in Hir.
  eapply elem_of_sublist in Hir; [|apply deduplicated_rows].
  apply combined_rows_elem in Hir as (record & Hi & ->).
  exists record. split; [done|]. split; [apply project_record_length|].
  intros j c Hj. rewrite (project_record_lookup _ _ _ Hj). split; [done|].
  intros Hno. by rewrite find_value_None.
Qed.

Lemma year_table_columns_witness :
  ∃ out, year_table (fun _ => 0%N) all_unparseable [per_strip_record] out
         ∧ names out = REQUIRED_COLUMNS ∧ length (names out) = 86%nat.
Proof.
  exists (select REQUIRED_COLUMNS (deduplicated (fun _ => 0%N) [per_strip_record])).
  assert (year_table (fun _ => 0%N) all_unparseable [per_strip_record]
            (select REQUIRED_COLUMNS (deduplicated (fun _ => 0%N) [per_strip_record])))
    as Hrun by (by apply year_table_unparseable).
  split; [done|].
  split; by apply (year_table_columns _ _ _ _ Hrun).
Defined.

(** C1 as stated fails on a run over one record that holds an order form
    and a per-strip price: the table has 86 columns, not 85, and the row
    has the per-strip price in the column M.R.P., a field the record does
    not have. *)
Lemma year_table_columns_counterexample :
  ∃ out, year_table (fun _ => 0%N) all_unparseable [per_strip_record] out
         ∧ length (names out) = 86%nat
         ∧ length (names out) ≠ 85%nat
         ∧ dict_get "M.R.P." per_strip_record = None
         ∧ (fun ir => row_get (names out) ir.2 "M.R.P.") <$> body out = [Some "10"].
Proof.
  exists (select REQUIRED_COLUMNS (deduplicated (fun _ => 0%N) [per_strip_record])).
  split; [by apply year_table_unparseable|].
  split; [done|]. split; [done|]. split; [done|]. by vm_compute.
Qed.

(** ** Outcomes of the date ordering *)


Global Instance date_le_total : Total date_le.
Proof.
  intros a b. unfold date_le. destruct a.1 as [x|], b.1 as [y|]; auto.
  destruct (decide (x ≤ y)%Z); [auto|right; lia].
Qed.



(** ** The duplicate key *)

Lemma omap_row_get_project record cs :
  Forall (.∈ REQUIRED_COLUMNS) cs →
  omap (row_get REQUIRED_COLUMNS (project_record record)) cs
  = omap id ((fun c => find_value c record) <$> cs).
Proof.
  intros Hcs. apply list_omap_ext, Forall2_fmap_r, Forall_Forall2_diag.
  eapply Forall_impl; [exact Hcs|]. intros c Hc. by apply row_get_project.
Qed.

(** The key of the row of a record is made of the present key cells; the
    row identity only enters when all three are empty. *)
Lemma row_key_cells row_id i record :
  row_key row_id i record
  = match omap id (key_cells record) with
    | [] => "ROW_" +:+ pretty (row_id i)
    | parts => Py.join "|" parts
    end.
Proof.
  unfold row_key, create_key. cbn [fst snd]. cbv zeta.
  rewrite omap_row_get_project.
  - fold (key_cells record). by destruct (omap id (key_cells record)).
  - apply (bool_decide_unpack _). by vm_compute.
Qed.









(** Duplicate removal over two records: the second row goes exactly when
    the two keys are equal. *)
Lemma deduplicated_two row_id (r0 r1 : dict) :
  labels (deduplicated row_id [r0; r1])
  = if bool_decide (row_key row_id 0 r0 = row_key row_id 1 r1)
    then [0%nat] else [0%nat; 1%nat].
Proof.
  unfold labels. rewrite deduplicated_spec. unfold combined_rows.
  cbn [imap fmap list_fmap body drop_duplicates_go compose].
  fold (row_key row_id 0 r0). fold (row_key row_id 1 r1).
  rewrite (bool_decide_eq_false_2 (row_key row_id 0 r0 ∈ (∅ : gset string)))
    by set_solver.
  case_bool_decide as Heq.
  - rewrite bool_decide_eq_true_2 by set_solver. done.
  - rewrite bool_decide_eq_false_2 by set_solver. done.
Qed.


Lemma keyless_row_key row_id i record :
  key_cells record = [None; None; None] →
  row_key row_id i record = "ROW_" +:+ pretty (row_id i).
Proof. intros Hcells. by rewrite row_key_cells, Hcells. Qed.

(** C10.  The duplicate key is the join of the present key cells only, so
    a record with Order Form [A] and Brand Name [B] and a record with
    Order Form [A] and PO Date [B] both get the key [A|B] and the second
    is dropped.  A record with none of the three cells gets the key
    [ROW_] followed by the identity of its row object; two such records
    are both kept when these identities differ, and the second is dropped
    as a duplicate when they are equal. *)
Theorem duplicate_key_collisions (row_id : nat → N) :
  (row_key row_id 0 [("Order Form", "A"); ("Brand Name", "B")] = "A|B"
   ∧ row_key row_id 1 [("Order Form", "A"); ("PO Date", "B")] = "A|B"
   ∧ labels (deduplicated row_id shifted_fields) = [0%nat])
  ∧ (row_id 0%nat = row_id 1%nat →
     labels (deduplicated row_id keyless_records) = [0%nat])
  ∧ (row_id 0%nat ≠ row_id 1%nat →
     labels (deduplicated row_id keyless_records) = [0%nat; 1%nat]).
Proof.
  assert (∀ i, row_key row_id i [("Order Form", "A"); ("Brand Name", "B")] = "A|B")
    as HA.
  { intros i. rewrite row_key_cells.
    by assert (omap id (key_cells [("Order Form", "A"); ("Brand Name", "B")])
               = ["A"; "B"]) as -> by (by vm_compute). }
  assert (∀ i, row_key row_id i [("Order Form", "A"); ("PO Date", "B")] = "A|B")
    as HB.
  { intros i. rewrite row_key_cells.
    by assert (omap id (key_cells [("Order Form", "A"); ("PO Date", "B")])
               = ["A"; "B"]) as -> by (by vm_compute). }
  assert (∀ i f, row_key row_id i [("Reference Format No", f)]
                 = "ROW_" +:+ pretty (row_id i)) as HK.
  { intros i f. apply keyless_row_key. by vm_compute. }
  split_and!.
  - apply HA.
  - apply HB.
  - unfold shifted_fields. rewrite deduplicated_two, HA, HB.
    by rewrite bool_decide_eq_true_2.
  - intros Hid. unfold keyless_records. rewrite deduplicated_two, !HK, Hid.
    by rewrite bool_decide_eq_true_2.
  - intros Hid. unfold keyless_records. rewrite deduplicated_two, !HK.
    rewrite bool_decide_eq_false_2; [done|].
    intros Heq. apply Hid. by apply (inj pretty), (inj (String.app "ROW_")).
Qed.

Lemma duplicate_key_collisions_witness :
  labels (deduplicated (fun _ => 140234866%N) keyless_records) = [0%nat].
Proof.
  by apply (proj1 (proj2 (duplicate_key_collisions (fun _ => 140234866%N)))).
Defined.

(** * Further properties of the script *)

(** ** The ledger: what it can hold and how marks compose *)

Lemma all_chars_lstrip p s : Py.all_chars p s = true → Py.all_chars p (Py.lstrip s) = true.
Proof.
  induction s as [|c s IH]; [done|]. simpl.
  intros [Hc Hs]%andb_prop. destruct (Py.isspace c); [by apply IH|].
  simpl. by rewrite Hc, Hs.
Qed.

Lemma all_chars_rstrip p s : Py.all_chars p s = true → Py.all_chars p (Py.rstrip s) = true.
Proof.
  induction s as [|c s IH]; [done|]. simpl.
  intros [Hc Hs]%andb_prop. specialize (IH Hs).
  destruct (Py.rstrip s).
  - destruct (Py.isspace c); simpl; [done|]. by rewrite Hc.
  - simpl in *. by rewrite Hc, IH.
Qed.

Lemma all_chars_strip p s : Py.all_chars p s = true → Py.all_chars p (Py.strip s) = true.
Proof. intros H. by apply all_chars_rstrip, all_chars_lstrip. Qed.

Lemma strip_snoc_space s c :
  Py.isspace c = true → Py.strip (s +:+ String c EmptyString) = Py.strip s.
Proof.
  intros Hc. unfold Py.strip. by rewrite <- !lstrip_rstrip, rstrip_snoc_space.
Qed.

Lemma readlines_line_shape s : Forall line_shape (readlines s).
Proof.
  remember (String.length s) as n eqn:Hn. revert s Hn.
  induction n as [n IH] using lt_wf_ind. intros s Hn.
  destruct s as [|c s]; [constructor|].
  assert (∀ t, (String.length t < n)%nat → Forall line_shape (readlines t)) as IH'
    by (intros t Ht; by apply (IH (String.length t))).
  assert (line_shape (String "010" EmptyString)) as Hlf by (exists ""; auto).
  rewrite readlines_cons.
  destruct (Ascii.eqb c "010") eqn:E1.
  { constructor; [done|]. apply IH'. subst n. simpl. lia. }
  destruct (Ascii.eqb c "013") eqn:E2.
  { constructor; [done|]. destruct s as [|d s]; [constructor|].
    destruct (Ascii.eqb d "010"); apply IH'; subst n; simpl; lia. }
  assert (Forall line_shape (readlines s)) as Hs by (apply IH'; subst n; simpl; lia).
  assert (negb (is_newline c) = true) as Hc by (unfold is_newline; by rewrite E1, E2).
  destruct (readlines s) as [|line lines].
  - constructor; [|constructor]. exists (String c EmptyString). simpl.
    rewrite Hc. auto.
  - apply Forall_cons in Hs as [(text & Htext & Hline) Hlines].
    constructor; [|done]. exists (String c text). simpl. rewrite Hc, Htext.
    split; [done|]. destruct Hline as [->| ->]; auto.
Qed.

Lemma strip_line_shape line :
  line_shape line →
  Py.all_chars (fun c => negb (is_newline c)) (Py.strip line) = true.
Proof.
  intros (text & Htext & [->| ->]).
  - by apply all_chars_strip.
  - rewrite strip_snoc_space by done. by apply all_chars_strip.
Qed.

(** The names read from a text are names the ledger can hold. *)
Lemma names_of_content_storable (content file_name : string) :
  file_name ∈ (list_to_set (filter (fun line => Py.truthy line = true)
                              (Py.strip <$> readlines content)) : gset string) →
  storable_name file_name.
Proof.
  rewrite elem_of_list_to_set, list_elem_of_filter, list_elem_of_fmap.
  intros [Htruthy (line & -> & Hline)].
  split_and!.
  - intros Hempty. by rewrite Hempty in Htruthy.
  - apply strip_idem.
  - apply strip_line_shape.
    pose proof (readlines_line_shape content) as Hall.
    rewrite Forall_forall in Hall. by apply Hall.
Qed.

(** X1.  Every name the ledger yields is a name it can hold: not empty,
    without white space at either end, without line break. *)
Theorem loaded_names_storable (year_name tracking_dir : string) (files : fs)
    (file_name : string) :
  file_name ∈ get_processed_files_from_tracking year_name tracking_dir files →
  storable_name file_name.
Proof.
  unfold get_processed_files_from_tracking.
  destruct (files !! _) as [content|]; [|by intros ?%not_elem_of_empty].
  apply names_of_content_storable.
Qed.

Lemma loaded_names_storable_witness :
  "f.xlsx" ∈ get_processed_files_from_tracking "2024-25" "combined-data"
               (after_mark " f.xlsx " "2024-25" "combined-data" every_write_succeeds ∅)
  ∧ storable_name "f.xlsx".
Proof.
  assert ("f.xlsx" ∈ get_processed_files_from_tracking "2024-25" "combined-data"
                       (after_mark " f.xlsx " "2024-25" "combined-data"
                          every_write_succeeds ∅))
    as Hin by (apply (bool_decide_unpack _); by vm_compute).
  split; [done|]. by apply (loaded_names_storable _ _ _ _ Hin).
Defined.

(** What loading yields after a mark that took effect, for any file
    name: the names of the ledger before, and the names read from the
    appended text. *)
Lemma ledger_after_any_mark file_name year_name tracking_dir (files : fs) :
  (match files !! tracking_file tracking_dir year_name with
   | Some old => ends_with_newline old = true
   | None => True
   end) →
  get_processed_files_from_tracking year_name tracking_dir
    (marked file_name year_name tracking_dir files)
  = get_processed_files_from_tracking year_name tracking_dir files
    ∪ list_to_set (filter (fun line => Py.truthy line = true)
                     (Py.strip <$> readlines (file_name +:+ String "010" EmptyString))).
Proof.
  intros Hold. unfold get_processed_files_from_tracking, marked, append_text.
  rewrite lookup_insert_eq.
  destruct (files !! tracking_file tracking_dir year_name) as [old|]; simpl.
  - rewrite readlines_app by done.
    by rewrite fmap_app, filter_app, list_to_set_app_L.
  - set_solver.
Qed.



(** X3.  On a ledger that is absent or ends with a line feed, a call of
    [mark_file_as_processed] with any file name loses no name: every
    name loaded before is loaded after; and afterwards the ledger file
    ends with a line feed, or is absent still, which it is only when the
    mark did not take effect. *)
Theorem ledger_grows (file_name year_name tracking_dir : string) (os : system)
    (files : fs) :
  (match files !! tracking_file tracking_dir year_name with
   | Some old => ends_with_newline old = true
   | None => True
   end) →
  get_processed_files_from_tracking year_name tracking_dir files
  ⊆ get_processed_files_from_tracking year_name tracking_dir
      (after_mark file_name year_name tracking_dir os files)
  ∧ match after_mark file_name year_name tracking_dir os files
          !! tracking_file tracking_dir year_name with
    | Some content => ends_with_newline content = true
    | None => mark_takes_effect os tracking_dir year_name = false
    end.
Proof.
  intros Hold. rewrite after_mark_cases.
  destruct (mark_takes_effect os tracking_dir year_name).
  - split.
    + rewrite ledger_after_any_mark by done. set_solver.
    + destruct (mark_file_as_processed_complete file_name year_name tracking_dir files)
        as (content & -> & Hcontent). done.
  - split; [done|].
    by destruct (files !! tracking_file tracking_dir year_name).
Qed.

Lemma ledger_grows_witness :
  get_processed_files_from_tracking "2024-25" "combined-data"
    (marked "a.xlsx" "2024-25" "combined-data" ∅)
  ⊆ get_processed_files_from_tracking "2024-25" "combined-data"
      (after_mark " b.xlsx" "2024-25" "combined-data" every_write_succeeds
         (marked "a.xlsx" "2024-25" "combined-data" ∅)).
Proof.
  apply ledger_grows.
  by destruct (mark_file_as_processed_complete "a.xlsx" "2024-25" "combined-data" ∅)
    as (content & -> & Hcontent).
Defined.

Lemma ledger_complete_after_mark file_name year_name tracking_dir (files : fs) :
  match marked file_name year_name tracking_dir files
        !! tracking_file tracking_dir year_name with
  | Some content => ends_with_newline content = true
  | None => True
  end.
Proof.
  by destruct (mark_file_as_processed_complete file_name year_name tracking_dir files)
    as (content & -> & Hcontent).
Qed.

(** X4.  Marks compose as insertions into a set: on a ledger that is
    absent or ends with a line feed, marking a storable name twice loads
    the same set as marking it once, and marking two storable names loads
    the same set in either order - whether the marks take effect or not. *)
Theorem marks_idempotent_and_commute (f g year_name tracking_dir : string) (os : system)
    (files : fs) :
  (match files !! tracking_file tracking_dir year_name with
   | Some old => ends_with_newline old = true
   | None => True
   end) →
  storable_name f → storable_name g →
  get_processed_files_from_tracking year_name tracking_dir
    (after_mark f year_name tracking_dir os
       (after_mark f year_name tracking_dir os files))
  = get_processed_files_from_tracking year_name tracking_dir
      (after_mark f year_name tracking_dir os files)
  ∧ get_processed_files_from_tracking year_name tracking_dir
      (after_mark f year_name tracking_dir os
         (after_mark g year_name tracking_dir os files))
    = get_processed_files_from_tracking year_name tracking_dir
        (after_mark g year_name tracking_dir os
           (after_mark f year_name tracking_dir os files)).
Proof.
  intros Hold Hf Hg. rewrite !after_mark_cases.
  destruct (mark_takes_effect os tracking_dir year_name); [|done].
  rewrite !(ledger_after_mark _ _ _ (marked _ _ _ _))
    by (done || apply ledger_complete_after_mark).
  rewrite !ledger_after_mark by done.
  split; set_solver.
Qed.

Lemma marks_idempotent_and_commute_witness :
  get_processed_files_from_tracking "2024-25" "combined-data"
    (after_mark "a.xlsx" "2024-25" "combined-data" every_write_succeeds
       (after_mark "b.xlsx" "2024-25" "combined-data" every_write_succeeds ∅))
  = get_processed_files_from_tracking "2024-25" "combined-data"
      (after_mark "b.xlsx" "2024-25" "combined-data" every_write_succeeds
         (after_mark "a.xlsx" "2024-25" "combined-data" every_write_succeeds ∅)).
Proof.
  apply marks_idempotent_and_commute; [by rewrite lookup_empty|by vm_compute..].
Defined.







(** ** File discovery *)

Lemma contains_cons sub c s :
  Py.contains sub (String c s) = Py.startswith sub (String c s) || Py.contains sub s.
Proof. reflexivity. Qed.

Lemma startswith_slash c s : Py.startswith "/" (String c s) = Ascii.eqb "/" c.
Proof. cbn [Py.startswith]. by destruct (Ascii.eqb "/" c). Qed.

Lemma contains_slash_app a b :
  Py.contains "/" (a +:+ b) = Py.contains "/" a || Py.contains "/" b.
Proof.
  induction a as [|c a IH].
  - destruct b; reflexivity.
  - rewrite string_app_cons, !contains_cons, IH, !startswith_slash.
    by rewrite orb_assoc.
Qed.

Lemma basename_cons c p :
  basename (String c p) = if Py.contains "/" (String c p) then basename p else String c p.
Proof. reflexivity. Qed.

Lemma basename_no_slash s : no_slash s → basename s = s.
Proof. intros Hs. destruct s as [|c s]; [done|]. by rewrite basename_cons, Hs. Qed.

Lemma basename_slash_app a b :
  no_slash b → basename (a +:+ "/" +:+ b) = b.
Proof.
  intros Hb. induction a as [|c a IH].
  - change ("" +:+ "/" +:+ b) with (String "/" b).
    rewrite basename_cons, contains_cons, startswith_slash. simpl.
    by apply basename_no_slash.
  - rewrite string_app_cons, basename_cons, <- string_app_cons.
    assert (Py.contains "/" (String c a +:+ "/" +:+ b) = true) as ->; [|done].
    rewrite !contains_slash_app. change (Py.contains "/" "/") with true.
    by rewrite orb_true_r.
Qed.

Lemma endswith_cons suffix c s :
  endswith suffix (String c s) = bool_decide (String c s = suffix) || endswith suffix s.
Proof. reflexivity. Qed.

Lemma endswith_slash_app suffix a b :
  no_slash suffix → endswith suffix (a +:+ "/" +:+ b) = endswith suffix b.
Proof.
  intros Hsuf.
  assert (∀ t, t +:+ String "/" b ≠ suffix) as Hne.
  { intros t Heq. unfold no_slash in Hsuf.
    rewrite <- Heq, contains_slash_app, contains_cons, startswith_slash in Hsuf.
    simpl in Hsuf. by rewrite orb_true_r in Hsuf. }
  change ("/" +:+ b) with (String "/" b).
  induction a as [|c a IH].
  - change ("" +:+ String "/" b) with (String "/" b).
    rewrite endswith_cons. rewrite bool_decide_eq_false_2; [done|]. apply (Hne "").
  - rewrite string_app_cons, endswith_cons, <- string_app_cons.
    rewrite bool_decide_eq_false_2; [done|]. apply Hne.
Qed.

Lemma rev_app_startswith_slash a acc :
  Py.startswith "/" (String.rev_app a acc) = true →
  (a = "" ∧ Py.startswith "/" acc = true) ∨ ∃ a', a = a' +:+ "/".
Proof.
  revert acc. induction a as [|c a IH]; intros acc H; [by left|]. right.
  simpl in H. destruct (IH _ H) as [[-> Hc]|[a' ->]].
  - rewrite startswith_slash in Hc. apply Ascii.eqb_eq in Hc as <-. by exists "".
  - by exists (String c a').
Qed.

(** With a file name that has no slash, the joined path has the name as
    its base name and ends as the name does. *)
Lemma path_join_name dir name suffix :
  no_slash name → no_slash suffix →
  basename (path_join dir name) = name
  ∧ endswith suffix (path_join dir name) = endswith suffix name.
Proof.
  intros Hname Hsuf. unfold path_join.
  destruct (negb (Py.truthy dir)); [split; [by apply basename_no_slash|done]|].
  destruct (Py.startswith "/" (String.rev dir)) eqn:E.
  - apply rev_app_startswith_slash in E as [[_ ?]|[a' ->]]; [done|].
    rewrite string_app_assoc.
    by rewrite basename_slash_app, endswith_slash_app.
  - by rewrite basename_slash_app, endswith_slash_app.
Qed.

(** X6.  Whether a file is taken depends on its own name only, not on the
    directory it lies in: for a file name without slash, the joined path
    is a valid Excel file exactly when the bare name is. *)
Theorem is_valid_excel_file_join (dir name : string) :
  no_slash name →
  is_valid_excel_file (path_join dir name) = is_valid_excel_file name.
Proof.
  intros Hname. unfold is_valid_excel_file.
  destruct (path_join_name dir name ".xlsx" Hname eq_refl) as [-> ->].
  by rewrite (basename_no_slash name).
Qed.

Lemma is_valid_excel_file_join_witness :
  is_valid_excel_file (path_join "PO/2024-2025/INDEX" "order 12.xlsx") = true.
Proof.
  rewrite is_valid_excel_file_join; by vm_compute.
Defined.

(** X7.  [get_all_excel_files] returns an ascending list that holds
    exactly the valid Excel files among the paths it is given: those of
    the walk when recursive, else those of the entries of the folder that
    are files; a folder that does not exist gives the empty list. *)
Theorem get_all_excel_files_spec (folder_path : string) (recursive exists_ : bool)
    (walk : list (string * list string * list string)) (listdir : list (string * bool)) :
  let result := get_all_excel_files folder_path recursive exists_ walk listdir in
  StronglySorted String.le result
  ∧ (exists_ = false → result = [])
  ∧ ∀ file_path,
      file_path ∈ result
      ↔ exists_ = true ∧ is_valid_excel_file file_path = true
        ∧ if recursive
          then ∃ root dirs files name,
                 (root, dirs, files) ∈ walk ∧ name ∈ files
                 ∧ file_path = path_join root name
          else ∃ item, (item, true) ∈ listdir ∧ file_path = path_join folder_path item.
Proof.
  cbn zeta. unfold get_all_excel_files.
  destruct exists_; cbn [negb]; first last.
  { split_and!; [constructor|done|]. intros ?. rewrite elem_of_nil. naive_solver. }
  destruct recursive; unfold sorted.
  - split_and!; [apply (StronglySorted_merge_sort String.le)|done|].
    intros file_path. rewrite merge_sort_Permutation, list_elem_of_filter.
    rewrite list_elem_of_bind. split.
    + intros [Hvalid ([[root dirs] files] & Hin & Hwalk)].
      apply list_elem_of_fmap in Hin as (name & -> & Hname).
      split_and!; [done..|]. by exists root, dirs, files, name.
    + intros (_ & Hvalid & root & dirs & files & name & Hwalk & Hname & ->).
      split; [done|]. exists (root, dirs, files). split; [|done].
      by apply list_elem_of_fmap_2.
  - split_and!; [apply (StronglySorted_merge_sort String.le)|done|].
    intros file_path. rewrite merge_sort_Permutation, list_elem_of_filter.
    rewrite list_elem_of_fmap. split.
    + intros [Hvalid (item & -> & Hitem)].
      apply list_elem_of_fmap in Hitem as ([item' isfile] & -> & Hin).
      apply list_elem_of_filter in Hin as [Hfile Hin]. simpl in *. subst isfile.
      split_and!; [done..|]. by exists item'.
    + intros (_ & Hvalid & item & Hin & ->). split; [done|].
      exists item. split; [done|].
      apply (list_elem_of_fmap_2 fst _ (item, true)).
      by apply list_elem_of_filter.
Qed.

(** ** The run over a year folder *)

Lemma startswith_char c d s : Py.startswith (String c EmptyString) (String d s) = Ascii.eqb c d.
Proof. cbn [Py.startswith]. by destruct (Ascii.eqb c d). Qed.

Lemma lacks_cons sep c s :
  Py.contains (String sep EmptyString) (String c s) = false
  ↔ Ascii.eqb c sep = false ∧ Py.contains (String sep EmptyString) s = false.
Proof.
  rewrite contains_cons, startswith_char, orb_false_iff.
  by rewrite (Ascii.eqb_sym sep c).
Qed.

Lemma split_on_not_nil sep s : split_on sep s ≠ [].
Proof.
  destruct s as [|c s]; [done|]. simpl.
  destruct (Ascii.eqb c sep); [done|]. by destruct (split_on sep s).
Qed.

Lemma split_on_app sep a b :
  Py.contains (String sep EmptyString) a = false →
  split_on sep (a +:+ String sep b) = a :: split_on sep b.
Proof.
  induction a as [|c a IH]; intros Ha.
  - change (EmptyString +:+ String sep b) with (String sep b).
    simpl. by rewrite Ascii.eqb_refl.
  - apply lacks_cons in Ha as [Hc Ha]. rewrite string_app_cons.
    cbn [split_on]. by rewrite Hc, IH.
Qed.

Lemma split_on_lacks sep a :
  Py.contains (String sep EmptyString) a = false → split_on sep a = [a].
Proof.
  induction a as [|c a IH]; intros Ha; [done|].
  apply lacks_cons in Ha as [Hc Ha]. cbn [split_on]. by rewrite Hc, IH.
Qed.

Lemma split_on_inv sep s a rest :
  split_on sep s = a :: rest →
  Py.contains (String sep EmptyString) a = false
  ∧ match rest with
    | [] => s = a
    | _ => ∃ s', s = a +:+ String sep s' ∧ split_on sep s' = rest
    end.
Proof.
  revert a rest. induction s as [|c s IH]; intros a rest.
  - simpl. by intros [= <- <-].
  - cbn [split_on]. destruct (Ascii.eqb c sep) eqn:Hc.
    + apply Ascii.eqb_eq in Hc as ->. intros [= <- <-]. split; [done|].
      pose proof (split_on_not_nil sep s). destruct (split_on sep s) eqn:E; [done|].
      by exists s.
    + pose proof (split_on_not_nil sep s).
      destruct (split_on sep s) as [|p ps] eqn:E; [done|].
      intros [= <- <-]. destruct (IH p ps eq_refl) as [Hp Hs].
      split; [by apply lacks_cons|].
      destruct ps as [|q ps]; [by subst s|].
      destruct Hs as (s' & -> & Hs'). exists s'. by rewrite string_app_cons.
Qed.

Lemma split_on_two sep s a b :
  split_on sep s = [a; b] →
  s = a +:+ String sep b
  ∧ Py.contains (String sep EmptyString) a = false
  ∧ Py.contains (String sep EmptyString) b = false.
Proof.
  intros [Ha (s' & -> & Hs')]%split_on_inv.
  by apply split_on_inv in Hs' as [Hb ->].
Qed.

Lemma last2_short s : (String.length s ≤ 2)%nat → last2 s = s.
Proof.
  destruct s as [|c s]; [done|]. cbn [last2 String.length]. intros H.
  destruct (Nat.leb_spec 2 (String.length s)); [lia|done].
Qed.

Lemma last2_length s : (String.length (last2 s) ≤ 2)%nat.
Proof.
  induction s as [|c s IH]; cbn [last2 String.length]; [lia|].
  destruct (Nat.leb_spec 2 (String.length s)); [done|]. cbn [String.length]. lia.
Qed.

Lemma last2_lacks sep s :
  Py.contains (String sep EmptyString) s = false →
  Py.contains (String sep EmptyString) (last2 s) = false.
Proof.
  induction s as [|c s IH]; [done|]. intros Hs. cbn [last2].
  destruct (2 <=? String.length s)%nat; [|done].
  apply IH. by apply lacks_cons in Hs as [_ Hs].
Qed.

Lemma output_year_name_two_parts a b :
  no_dash a → no_dash b →
  output_year_name (a +:+ "-" +:+ b) = a +:+ "-" +:+ last2 b.
Proof.
  intros Ha Hb. unfold output_year_name.
  change ("-" +:+ b) with (String "-" b).
  by rewrite (split_on_app "-" a b Ha), (split_on_lacks "-" b Hb).
Qed.

(** X8.  The output name of a year is stable: filing a year under its
    output name gives that name again. *)
Theorem output_year_name_idempotent (year_name : string) :
  output_year_name (output_year_name year_name) = output_year_name year_name.
Proof.
  unfold output_year_name at 2 3.
  destruct (split_on "-" year_name) as [|a [|b [|c parts]]] eqn:E;
    try (unfold output_year_name; by rewrite E).
  apply split_on_two in E as (_ & Ha & Hb).
  rewrite output_year_name_two_parts; [|done|by apply (last2_lacks "-")].
  by rewrite (last2_short (last2 b)) by apply last2_length.
Qed.

(** X9.  Two year folders whose names have the same first part share one
    output name - and with it one output file and one ledger - exactly
    when their second parts end in the same two characters. *)
Theorem output_year_name_shared (a b b' : string) :
  no_dash a → no_dash b → no_dash b' →
  output_year_name (a +:+ "-" +:+ b) = output_year_name (a +:+ "-" +:+ b')
  ↔ last2 b = last2 b'.
Proof.
  intros Ha Hb Hb'. rewrite !output_year_name_two_parts by done. split.
  - intros H. apply (inj (String.app a)) in H.
    by apply (inj (String.app "-")) in H.
  - by intros ->.
Qed.

Lemma output_year_name_shared_witness :
  output_year_name ("2023" +:+ "-" +:+ "2024") = output_year_name ("2023" +:+ "-" +:+ "1924")
  ↔ last2 "2024" = last2 "1924".
Proof. by apply output_year_name_shared. Defined.

Section file_loop.

Variables (year tracking_dir : string) (ExcelFile : string -> option workbook).
Variable os : system.

Lemma process_file_cases skip_processed processed_files state file_path :
  let next := process_file skip_processed processed_files year tracking_dir
                ExcelFile os state file_path in
  (skip_processed = true ∧ basename file_path ∈ processed_files ∧ next = state)
  ∨ (¬ (skip_processed = true ∧ basename file_path ∈ processed_files)
     ∧ next.1 = state.1 ++ file_records ExcelFile file_path
     ∧ next.2 = if (0 <? length (file_records ExcelFile file_path))%nat && skip_processed
                then after_mark (basename file_path) year tracking_dir os state.2
                else state.2).
Proof.
  cbn zeta. unfold process_file, file_records, after_mark.
  destruct skip_processed; cbn [andb].
  - case_bool_decide as Hin; [by left|]. right.
    split; [naive_solver|].
    destruct (ExcelFile file_path) as [sheets|]; [done|].
    by rewrite app_nil_r.
  - right. split; [naive_solver|].
    destruct (ExcelFile file_path) as [sheets|]; [by rewrite andb_false_r|].
    by rewrite app_nil_r.
Qed.

Lemma file_loop_records skip_processed processed_files l state :
  (foldl (process_file skip_processed processed_files year tracking_dir ExcelFile os)
     state l).1
  = state.1
    ++ (filter (fun file_path =>
                  ¬ (skip_processed = true ∧ basename file_path ∈ processed_files)) l
        ≫= file_records ExcelFile).
Proof.
  revert state. induction l as [|f l IH]; intros state.
  - by rewrite app_nil_r.
  - cbn [foldl]. rewrite IH, filter_cons.
    destruct (process_file_cases skip_processed processed_files state f)
      as [(Hs & Hin & ->)|(Hn & -> & _)].
    + by rewrite decide_False by naive_solver.
    + rewrite decide_True by done. by rewrite bind_cons, app_assoc.
Qed.

Lemma file_loop_other_files skip_processed processed_files l state path :
  path ≠ tracking_file tracking_dir year ∨ skip_processed = false →
  (foldl (process_file skip_processed processed_files year tracking_dir ExcelFile os)
     state l).2 !! path
  = state.2 !! path.
Proof.
  intros Hpath. revert state. induction l as [|f l IH]; intros state; [done|].
  cbn [foldl]. rewrite IH.
  destruct (process_file_cases skip_processed processed_files state f)
    as [(_ & _ & ->)|(_ & _ & ->)]; [done|].
  destruct (_ && _) eqn:E; [|done].
  apply andb_prop in E as [_ ->]. destruct Hpath as [Hpath|?]; [|done].
  rewrite after_mark_cases. destruct (mark_takes_effect _ _ _); [|done].
  unfold marked, append_text. by rewrite lookup_insert_ne.
Qed.



End file_loop.

(** X10.  The files a run reads are fixed by the ledger as it was loaded
    before the loop: the records collected are those of the Excel files
    of the year folder, in order, leaving out - when processed files are
    to be skipped - exactly the files whose base name the ledger held at
    the start; marks written during the run do not change what is read. *)
Theorem collect_records_reads (year_folder output_dir : string) (skip_processed : bool)
    (exists_ : bool) (walk : list (string * list string * list string))
    (ExcelFile : string -> option workbook) (os : system) (files : fs) :
  (collect_records year_folder output_dir skip_processed exists_ walk ExcelFile os files).1
  = filter (fun file_path =>
              ¬ (skip_processed = true
                 ∧ basename file_path
                   ∈ get_processed_files_from_tracking
                       (output_year_name (basename year_folder)) output_dir files))
      (get_all_excel_files year_folder true exists_ walk [])
    ≫= file_records ExcelFile.
Proof.
  unfold collect_records. rewrite file_loop_records. cbn [fst app].
  destruct skip_processed; [done|].
  f_equal. apply list_filter_iff. naive_solver.
Qed.

(** X11.  A run writes nothing but the ledger of its year, and not even
    that when processed files are not to be skipped: every other path of
    the output directory holds after the file loop what it held before. *)
Theorem collect_records_writes (year_folder output_dir : string) (skip_processed : bool)
    (exists_ : bool) (walk : list (string * list string * list string))
    (ExcelFile : string -> option workbook) (os : system) (files : fs) (path : string) :
  path ≠ tracking_file output_dir (output_year_name (basename year_folder))
  ∨ skip_processed = false →
  (collect_records year_folder output_dir skip_processed exists_ walk ExcelFile os files).2
    !! path
  = files !! path.
Proof.
  intros Hpath. unfold collect_records. by rewrite file_loop_other_files.
Qed.

Lemma collect_records_writes_witness :
  (collect_records "PO/2024-2025" "combined-data" true true one_workbook_year
     one_sheet_workbook every_write_succeeds ∅).2 !! "combined-data/2024-25.xlsx"
  = (∅ : fs) !! "combined-data/2024-25.xlsx".
Proof.
  apply collect_records_writes. left.
  apply (bool_decide_unpack _). by vm_compute.
Defined.



Lemma file_loop_without_effect year tracking_dir ExcelFile os skip_processed
    processed_files l state :
  mark_takes_effect os tracking_dir year = false →
  (foldl (process_file skip_processed processed_files year tracking_dir ExcelFile os)
     state l).2 = state.2.
Proof.
  intros Heffect. revert state. induction l as [|f l IH]; intros state; [done|].
  cbn [foldl]. rewrite IH.
  destruct (process_file_cases year tracking_dir ExcelFile os skip_processed
              processed_files state f) as [(_ & _ & ->)|(_ & _ & ->)]; [done|].
  rewrite after_mark_cases, Heffect. by destruct (_ && _).
Qed.

(** X19.  When the mark cannot take effect - the tracking directory is
    the empty name or cannot be made, or the ledger file cannot be
    appended to - a run leaves the output directory as it is, and a
    second run collects the same records again. *)
Theorem collect_records_without_effect (year_folder output_dir : string)
    (skip_processed : bool) (exists_ : bool)
    (walk : list (string * list string * list string))
    (ExcelFile : string -> option workbook) (os : system) (files : fs) :
  mark_takes_effect os output_dir (output_year_name (basename year_folder)) = false →
  let first := collect_records year_folder output_dir skip_processed exists_ walk
                 ExcelFile os files in
  first.2 = files
  ∧ collect_records year_folder output_dir skip_processed exists_ walk ExcelFile os
      first.2 = first.
Proof.
  intros Heffect. cbn zeta.
  assert ((collect_records year_folder output_dir skip_processed exists_ walk
             ExcelFile os files).2 = files) as Hfiles.
  { unfold collect_records. by rewrite file_loop_without_effect. }
  split; [done|]. by rewrite Hfiles.
Qed.

Lemma collect_records_without_effect_witness :
  (collect_records "PO/2024-2025" "" true true one_workbook_year one_sheet_workbook
     every_write_succeeds ∅).2 = ∅
  ∧ collect_records "PO/2024-2025" "" true true one_workbook_year one_sheet_workbook
      every_write_succeeds
      (collect_records "PO/2024-2025" "" true true one_workbook_year one_sheet_workbook
         every_write_succeeds ∅).2
    = collect_records "PO/2024-2025" "" true true one_workbook_year one_sheet_workbook
        every_write_succeeds ∅.
Proof. by apply collect_records_without_effect. Defined.

(** ** What a record can hold and what of it is written *)

Lemma exact_loop_elem_of n l c : exact_loop n l = Some c → c ∈ l.
Proof.
  induction l as [|t l IH]; [done|]. simpl.
  case_bool_decide; [intros [= ->]; left|right; by apply IH].
Qed.

Lemma fuzzy_loop_elem_of ws l bm bs :
  match fuzzy_loop ws l bm bs with
  | inl c => c ∈ l
  | inr best => ∀ c, best = Some c → c ∈ l ∨ bm = Some c
  end.
Proof.
  revert bm bs. induction l as [|t l IH]; intros bm bs; cbn [fuzzy_loop].
  - intros c ->. by right.
  - cbv zeta. case_bool_decide; [left|].
    assert (∀ bm' bs', (bm' = bm ∨ bm' = Some t) →
      match fuzzy_loop ws l bm' bs' with
      | inl c => c ∈ t :: l
      | inr best => ∀ c, best = Some c → c ∈ t :: l ∨ bm = Some c
      end) as Hstep.
    { intros bm' bs' Hbm. specialize (IH bm' bs').
      destruct (fuzzy_loop ws l bm' bs') as [c|best]; [by right|].
      intros c Hc. destruct (IH c Hc) as [?|Hb]; [left; by right|].
      destruct Hbm as [->| ->]; [by right|]. injection Hb as ->. left; left. }
    destruct (_ || _); [|apply Hstep; by left].
    destruct (_ <? _)%nat; apply Hstep; auto.
Qed.

(** Whatever the matcher returns is one of the targets or a value of the
    alias table. *)
Lemma match_column_name_elem_of source_name target_columns c :
  match_column_name source_name target_columns = Some c →
  c ∈ target_columns ∨ ∃ alias, variations !! alias = Some c.
Proof.
  unfold match_column_name. destruct (negb _); [done|]. cbv zeta.
  destruct (exact_loop _ _) as [t|] eqn:Ee.
  { intros [= <-]. left. by eapply exact_loop_elem_of. }
  pose proof (fuzzy_loop_elem_of (word_set (normalize_text source_name))
                target_columns None 0) as Hf.
  destruct (fuzzy_loop _ _ _ _) as [t|best].
  { intros [= <-]. by left. }
  destruct (variations !! normalize_text source_name) as [v|] eqn:Ev.
  { intros [= <-]. right. by eexists. }
  intros ->. destruct (Hf c eq_refl) as [?|?]; [by left|done].
Qed.

Lemma variations_values alias c :
  variations !! alias = Some c → c ∈ REQUIRED_COLUMNS ∨ c = "Qty (UOM)".
Proof.
  intros H%elem_of_list_to_map_2.
  assert (Forall (fun kv => kv.2 ∈ REQUIRED_COLUMNS ∨ kv.2 = "Qty (UOM)") variations_items)
    as Hall by (apply (bool_decide_unpack _); by vm_compute).
  rewrite Forall_forall in Hall. apply (Hall _ H).
Qed.

Lemma header_fields_required : Forall (fun c => c ∈ REQUIRED_COLUMNS) header_fields.*2.
Proof. apply (bool_decide_unpack _). by vm_compute. Qed.

Lemma header_rows_other df d l c :
  c ∉ header_fields.*2 → dict_get c (foldl (header_row df) d l) = dict_get c d.
Proof.
  intros Hc. induction l as [|r l IH] using rev_ind; [done|].
  rewrite foldl_app. cbn [foldl]. rewrite header_row_fields.
  case_bool_decide; [done|]. by rewrite header_steps_other.
Qed.

Lemma title_row_column df d r :
  title_row df d r = d
  ∨ ∃ title column value,
      match_column_name title REQUIRED_COLUMNS = Some column
      ∧ title_row df d r = dict_set column value d.
Proof.
  unfold title_row.
  destruct (bool_decide (columns df < 3)%nat); [by left|].
  destruct (notna (iloc df r 1)); [|by left].
  destruct (_ && _ && _); [|by left].
  destruct (match_column_name _ _) as [column|] eqn:Em; [|by left].
  destruct (Py.truthy column && negb (dict_in column d)); [|by left].
  match goal with
  | |- context [if ?c then dict_set _ _ _ else _] => destruct c; [|by left]
  end.
  right. by eexists _, _, _.
Qed.

Lemma title_rows_keys df d l k :
  dict_in k (foldl (title_row df) d l) = true →
  dict_in k d = true ∨ k ∈ REQUIRED_COLUMNS ∨ k = "Qty (UOM)".
Proof.
  induction l as [|r l IH] using rev_ind; [by left|].
  rewrite foldl_app. cbn [foldl].
  destruct (title_row_column df (foldl (title_row df) d l) r)
    as [->|(title & column & value & Hm & ->)]; [done|].
  destruct (decide (column = k)) as [->|Hne].
  - intros _. right.
    apply match_column_name_elem_of in Hm as [?|[alias Ha]]; [by left|].
    by eapply variations_values.
  - unfold dict_in at 1. by rewrite dict_get_set_ne.
Qed.

(** X13.  The keys of an extracted record are required columns, with one
    exception: the alias table sends the title [Qty UOM] to the key
    [Qty (UOM)], which is not a required column. *)
Theorem extracted_keys (df_sheet : DataFrame) (file_name sheet_name : string)
    (data : dict) (key : string) :
  extract_data_from_sheet df_sheet file_name sheet_name = Some data →
  dict_in key data = true →
  key ∈ REQUIRED_COLUMNS ∨ key = "Qty (UOM)".
Proof.
  unfold extract_data_from_sheet. destruct (_ || _); [done|]. cbv zeta.
  destruct (_ && _ && _); [done|]. intros [= <-].
  intros [Hk|Hk]%title_rows_keys; [|done]. left.
  destruct (decide (key ∈ header_fields.*2)) as [Hin|Hout].
  - pose proof header_fields_required as Hall. rewrite Forall_forall in Hall. by apply Hall.
  - unfold dict_in, header_scan in Hk. by rewrite header_rows_other in Hk.
Qed.

Lemma extracted_keys_witness :
  extract_data_from_sheet qty_uom_sheet "orders.xlsx" "Sheet1"
  = Some [("Order Form", "OF123"); ("Qty (UOM)", "1000")]
  ∧ ("Qty (UOM)" ∈ REQUIRED_COLUMNS ∨ "Qty (UOM)" = "Qty (UOM)").
Proof.
  assert (extract_data_from_sheet qty_uom_sheet "orders.xlsx" "Sheet1"
          = Some [("Order Form", "OF123"); ("Qty (UOM)", "1000")]) as E by (by vm_compute).
  split; [done|]. by apply (extracted_keys _ _ _ _ _ E).
Defined.

Lemma find_value_app c items1 items2 :
  find_value c (items1 ++ items2)
  = match find_value c items1 with
    | Some value => Some value
    | None => find_value c items2
    end.
Proof.
  induction items1 as [|[key val] items1 IH]; [done|]. simpl.
  by case_bool_decide.
Qed.

Lemma qty_uom_matches_no_column :
  Forall (fun c => match_column_name "Qty (UOM)" [c] ≠ Some c) REQUIRED_COLUMNS.
Proof. apply (bool_decide_unpack _). by vm_compute. Qed.

(** X14.  A field stored under [Qty (UOM)] is written to no column: the
    columns built from the collected records are the same as if the
    field were not in its record. *)
Theorem qty_uom_not_written (before after : list dict) (items1 items2 : dict)
    (value : string) :
  result_data (before ++ (items1 ++ ("Qty (UOM)", value) :: items2) :: after)
  = result_data (before ++ (items1 ++ items2) :: after).
Proof.
  rewrite !result_data_spec. apply list_fmap_ext. intros i c Hc.
  f_equal. rewrite !fmap_app, !fmap_cons. do 2 f_equal.
  rewrite !find_value_app. destruct (find_value c items1); [done|].
  cbn [find_value]. rewrite bool_decide_eq_false_2; [done|].
  pose proof qty_uom_matches_no_column as Hall. rewrite Forall_forall in Hall.
  apply Hall. by eapply list_elem_of_lookup_2.
Qed.

(** ** The text the patterns capture *)

Lemma run_star_nil f p rec acc :
  Re.run (Re.Star f :: p) EmptyString rec acc = Re.run p EmptyString rec acc.
Proof. reflexivity. Qed.

Lemma run_star_cons f p d s rec acc :
  Re.run (Re.Star f :: p) (String d s) rec acc
  = if f d
    then match Re.run (Re.Star f :: p) s rec (Re.push rec d acc) with
         | Some r => Some r
         | None => Re.run p (String d s) rec acc
         end
    else Re.run p (String d s) rec acc.
Proof. reflexivity. Qed.

(** A match of a pattern with a group is a match of the part from the
    opening of the group on, somewhere in the text. *)
Lemma run_open pre q s rec acc g :
  Re.run (pre ++ Re.Open :: q) s rec acc = Some g →
  ∃ s', Re.run q s' true EmptyString = Some g.
Proof.
  revert s rec acc. induction pre as [|a pre IH]; intros s rec acc.
  { intros H. by exists s. }
  rewrite <- app_comm_cons. destruct a as [c|f|f|f| |].
  - destruct s as [|d s]; [done|]. cbn [Re.run].
    destruct (Ascii.eqb _ _); [apply IH|done].
  - destruct s as [|d s]; [done|]. cbn [Re.run].
    destruct (f d); [apply IH|done].
  - destruct s as [|d s]; cbn [Re.run]; [apply IH|].
    destruct (f d); [|apply IH].
    destruct (Re.run _ s _ _) eqn:E; [|apply IH].
    intros [= <-]. by eapply IH.
  - revert acc. induction s as [|d s IHs]; intros acc.
    + rewrite run_star_nil. apply IH.
    + rewrite run_star_cons. destruct (f d); [|apply IH].
      destruct (Re.run (Re.Star f :: _) s _ _) eqn:E; [|apply IH].
      intros [= <-]. by eapply IHs.
  - cbn [Re.run]. apply IH.
  - cbn [Re.run]. apply IH.
Qed.

Lemma search_match p s g :
  Re.search p s = Some g → ∃ s', Re.match_ p s' = Some g.
Proof.
  induction s as [|c s IH]; cbn [Re.search].
  - destruct (Re.match_ p "") eqn:E; [|done]. intros [= <-]. by exists "".
  - destruct (Re.match_ p (String c s)) eqn:E; [|done].
    intros [= <-]. by eexists.
Qed.

Lemma all_chars_rev_app p a b :
  Py.all_chars p (String.rev_app a b) = Py.all_chars p a && Py.all_chars p b.
Proof.
  revert b. induction a as [|c a IH]; intros b; [done|].
  cbn [String.rev_app]. rewrite IH. cbn [Py.all_chars].
  destruct (p c), (Py.all_chars p a), (Py.all_chars p b); done.
Qed.

Lemma all_chars_rev p a : Py.all_chars p (String.rev a) = Py.all_chars p a.
Proof. unfold String.rev. rewrite all_chars_rev_app. cbn. by rewrite andb_true_r. Qed.

(** The group [cls+] closing a pattern holds characters of the class only. *)
Lemma run_star_close f s acc g :
  Py.all_chars f acc = true →
  Re.run [Re.Star f; Re.Close] s true acc = Some g →
  Py.all_chars f g = true.
Proof.
  revert acc. induction s as [|d s IH]; intros acc Hacc.
  - rewrite run_star_nil. cbn [Re.run]. intros [= <-]. by rewrite all_chars_rev.
  - rewrite run_star_cons. destruct (f d) eqn:Hd.
    + destruct (Re.run [Re.Star f; Re.Close] s true _) eqn:E.
      * intros [= <-]. eapply IH; [|exact E].
        unfold Re.push. cbn [Py.all_chars]. by rewrite Hd.
      * cbn [Re.run]. intros [= <-]. by rewrite all_chars_rev.
    + cbn [Re.run]. intros [= <-]. by rewrite all_chars_rev.
Qed.

Lemma run_plus_close f s g :
  Re.run (Re.plus f ++ [Re.Close]) s true EmptyString = Some g →
  Py.all_chars f g = true.
Proof.
  unfold Re.plus. rewrite <- app_comm_cons. destruct s as [|d s]; [done|].
  cbn [Re.run app]. destruct (f d) eqn:Hd; [|done].
  apply run_star_close. unfold Re.push. cbn [Py.all_chars]. by rewrite Hd.
Qed.

Lemma search_group pre f s g :
  Re.search (pre ++ [Re.Open] ++ Re.plus f ++ [Re.Close]) s = Some g →
  Py.all_chars f g = true.
Proof.
  intros [s' H]%search_match. unfold Re.match_ in H.
  apply run_open in H as [s'' H]. by eapply run_plus_close.
Qed.

Lemma header_value_chars f df r v cls pre :
  f.1.2 = pre ++ [Re.Open] ++ Re.plus cls ++ [Re.Close] →
  header_value f df r = Some v →
  v ≠ "" ∧ Py.all_chars cls v = true.
Proof.
  intros Hp. unfold header_value, safe_extract. rewrite Hp.
  destruct (existsb _ _); [|done].
  destruct (_ && _); [|done]. destruct (notna _); [|done].
  destruct (Re.search _ _) as [g|] eqn:E; [|done].
  destruct (Py.truthy (Py.strip g)) eqn:Ht; [|done]. intros [= <-].
  split; [by destruct (Py.strip g)|].
  apply all_chars_strip. by eapply search_group.
Qed.

(** X15.  What the header scan stores as order form number consists of
    word characters only, and what it stores as O.F. date or PO date of
    digits, dashes and slashes only; none of the three is empty, and the
    extracted record keeps the value. *)
Theorem header_scan_value_chars (df : DataFrame) (column : string)
    (cls : ascii -> bool) (v : string) :
  (column, cls) ∈ [("Order Form", Py.isword_char); ("O.F. Date", date_class);
                   ("PO Date", date_class)] →
  dict_get column (header_scan df []) = Some v →
  dict_get column (build_record df) = Some v
  ∧ v ≠ "" ∧ Py.all_chars cls v = true.
Proof.
  intros Hin Hv. split; [by apply title_rows_keep|].
  assert (∃ f pre, f ∈ header_fields ∧ f.2 = column
                   ∧ f.1.2 = pre ++ [Re.Open] ++ Re.plus cls ++ [Re.Close])
    as (f & pre & Hf & <- & Hp).
  { repeat (apply elem_of_cons in Hin as [[= -> ->]|Hin]);
      [| | |by apply elem_of_nil in Hin].
    - exists order_form_field, (Re.lit "Order form number" ++ colon).
      split_and!; [|done|by rewrite <- !app_assoc].
      right; left.
    - exists (["o.f. date"; "of date"], of_date_re, "O.F. Date"),
             (Re.lit "O.F. Date" ++ colon).
      split_and!; [|done|by rewrite <- !app_assoc].
      right; right; left.
    - exists (["po date"], po_date_re, "PO Date"), (Re.lit "PO Date" ++ colon).
      split_and!; [|done|by rewrite <- !app_assoc].
      right; right; right; left. }
  unfold header_scan in Hv. rewrite (header_rows_get df [] _ f Hf) in Hv.
  destruct (last _) as [w|] eqn:El; [|done]. injection Hv as ->.
  apply last_Some_elem_of in El. apply list_elem_of_omap in El as (r & _ & Hr).
  by eapply header_value_chars.
Qed.

Lemma header_scan_value_chars_witness :
  dict_get "Order Form" (build_record two_order_forms) = Some "OF2"
  ∧ "OF2" ≠ "" ∧ Py.all_chars Py.isword_char "OF2" = true.
Proof.
  apply (header_scan_value_chars two_order_forms "Order Form" Py.isword_char "OF2").
  - left.
  - by vm_compute.
Defined.

Lemma all_chars_impl (p q : ascii -> bool) s :
  (∀ c, p c = true → q c = true) →
  Py.all_chars p s = true → Py.all_chars q s = true.
Proof.
  intros Hpq. induction s as [|c s IH]; [done|]. cbn [Py.all_chars].
  intros [Hc Hs]%andb_prop. by rewrite (Hpq c Hc), IH.
Qed.

Lemma remove_char_digits g :
  Py.all_chars (fun c => Py.isdecimal_char c || Ascii.eqb c ",") g = true →
  Py.all_chars Py.isdecimal_char (Py.remove_char "," g) = true.
Proof.
  induction g as [|c g IH]; [done|]. cbn [Py.all_chars Py.remove_char].
  intros [Hc Hg]%andb_prop. rewrite (Ascii.eqb_sym "," c).
  destruct (Ascii.eqb c ",") eqn:E; [by apply IH|].
  rewrite orb_false_r in Hc. cbn [Py.all_chars]. by rewrite Hc, IH.
Qed.

(** X16.  For a quantity column the stored value is either the details
    as they stand, when they do not begin with digits or commas (after
    an optional quote), or a text of decimal digits only: the leading
    number of the details with its commas removed. *)
Theorem stored_quantity_digits (matched_column details_value : string)
    (additional_value : option string) :
  Py.contains "m.r.p" (Py.lower matched_column) = false →
  Py.contains "quantity" (Py.lower matched_column)
  || Py.contains "qty" (Py.lower matched_column) = true →
  (Re.match_ quantity_re details_value = None
   ∧ stored_value matched_column details_value additional_value = details_value)
  ∨ Py.all_chars Py.isdecimal_char
      (stored_value matched_column details_value additional_value) = true.
Proof.
  intros Hmrp Hqty. unfold stored_value. rewrite Hmrp, Hqty.
  destruct (Re.match_ quantity_re details_value) as [g|] eqn:E; [right|by left].
  apply all_chars_strip, remove_char_digits.
  unfold Re.match_, quantity_re in E.
  apply (run_open [Re.Opt _]) in E as [s' E]. by eapply run_plus_close.
Qed.

Lemma stored_quantity_digits_witness :
  (Re.match_ quantity_re "1,000 Nos" = None
   ∧ stored_value "Quantity" "1,000 Nos" None = "1,000 Nos")
  ∨ Py.all_chars Py.isdecimal_char (stored_value "Quantity" "1,000 Nos" None) = true.
Proof. by apply stored_quantity_digits. Defined.

Lemma strip_no_space s :
  Py.all_chars (fun c => negb (Py.isspace c)) s = true → Py.strip s = s.
Proof.
  intros Hs. unfold Py.strip.
  assert (Py.lstrip s = s) as ->.
  { destruct s as [|c s]; [done|]. cbn [Py.all_chars] in Hs.
    apply andb_prop in Hs as [Hc _]. apply negb_true_iff in Hc.
    cbn [Py.lstrip]. by rewrite Hc. }
  induction s as [|c s IH]; [done|]. cbn [Py.all_chars] in Hs.
  apply andb_prop in Hs as [Hc Hs]. apply negb_true_iff in Hc.
  cbn [Py.rstrip]. rewrite (IH Hs). destruct s; [by rewrite Hc|done].
Qed.

Lemma remove_class_all cls s :
  Py.all_chars (fun c => negb (cls c)) (Re.remove_class cls s) = true.
Proof.
  induction s as [|c s IH]; [done|]. cbn [Re.remove_class].
  destruct (cls c) eqn:E; [done|]. cbn [Py.all_chars]. by rewrite E, IH.
Qed.

Lemma stored_value_clean matched_column details_value additional_value :
  Py.strip details_value = details_value → details_value ≠ "" →
  clean_value matched_column (stored_value matched_column details_value additional_value).
Proof.
  intros Hstrip Hne.
  assert (clean_value matched_column details_value) as Hd by done.
  unfold stored_value.
  destruct (Py.contains "m.r.p" _).
  - destruct additional_value as [additional|]; [|done].
    destruct (Py.truthy additional); [|done].
    set (mrp_clean := Re.remove_class _ _).
    destruct (Py.truthy mrp_clean && _) eqn:E; [|done].
    apply andb_prop in E as [Ht _]. split; [|by destruct mrp_clean].
    apply strip_no_space.
    eapply all_chars_impl; [|apply remove_class_all].
    intros c Hc. cbn beta in Hc. apply negb_true_iff, orb_false_iff in Hc as [_ Hc].
    by rewrite Hc.
  - fold (quantity_column matched_column).
    destruct (quantity_column matched_column) eqn:Eq; [|done].
    destruct (Re.match_ quantity_re details_value); [|done].
    split; [apply strip_idem|done].
Qed.

Lemma title_row_clean df d r :
  title_row df d r = d
  ∨ ∃ column value,
      dict_in column d = false ∧ clean_value column value
      ∧ title_row df d r = dict_set column value d.
Proof.
  unfold title_row.
  destruct (bool_decide (columns df < 3)%nat); [by left|].
  destruct (notna (iloc df r 1)); [|by left].
  destruct (_ && _ && _); [|by left].
  destruct (match_column_name _ _) as [column|]; [|by left].
  destruct (Py.truthy column && negb (dict_in column d)) eqn:E; [|by left].
  apply andb_prop in E as [_ E]. apply negb_true_iff in E.
  match goal with
  | |- context [if Py.truthy ?dv && _ then dict_set _ _ _ else _] =>
      destruct (Py.truthy dv) eqn:Ht; [|by left];
      assert (Py.strip dv = dv) as Hs
        by (destruct (notna (iloc df r 2)); [apply strip_idem|done])
  end.
  cbn [andb].
  match goal with
  | |- context [if ?c then dict_set _ _ _ else _] => destruct c; [|by left]
  end.
  right. eexists _, _. split_and!; [done| |reflexivity].
  apply stored_value_clean; [done|]. intros Hempty. by rewrite Hempty in Ht.
Qed.

Lemma title_rows_clean df d l k v :
  dict_get k (foldl (title_row df) d l) = Some v →
  dict_get k d = Some v ∨ clean_value k v.
Proof.
  revert v. induction l as [|r l IH] using rev_ind; intros v; [by left|].
  rewrite foldl_app. cbn [foldl].
  destruct (title_row_clean df (foldl (title_row df) d l) r)
    as [->|(column & value & _ & Hclean & ->)]; [apply IH|].
  destruct (decide (column = k)) as [->|Hne].
  - rewrite dict_get_set_eq. intros [= <-]. by right.
  - rewrite dict_get_set_ne by done. apply IH.
Qed.

Lemma header_value_clean f df r v :
  header_value f df r = Some v → Py.strip v = v ∧ v ≠ "".
Proof.
  unfold header_value, safe_extract.
  destruct (existsb _ _); [|done].
  destruct (_ && _); [|done]. destruct (notna _); [|done].
  destruct (Re.search _ _) as [g|]; [|done].
  destruct (Py.truthy (Py.strip g)) eqn:Ht; [|done]. intros [= <-].
  split; [apply strip_idem|by destruct (Py.strip g)].
Qed.

Lemma header_scan_clean df k v :
  dict_get k (header_scan df []) = Some v → Py.strip v = v ∧ v ≠ "".
Proof.
  unfold header_scan. intros Hv.
  destruct (decide (k ∈ header_fields.*2)) as [Hin|Hout].
  - apply list_elem_of_fmap in Hin as (f & -> & Hf).
    rewrite (header_rows_get df [] _ f Hf) in Hv.
    destruct (last _) as [w|] eqn:El; [|done]. injection Hv as ->.
    apply last_Some_elem_of in El. apply list_elem_of_omap in El as (r & _ & Hr).
    by eapply header_value_clean.
  - by rewrite header_rows_other in Hv.
Qed.

(** X17.  Every value of an extracted record is free of white space at
    both ends, and none is empty except, possibly, that of a quantity
    column, which the clean-up reduces to the digits of the leading
    number and so to nothing when that number is commas only. *)
Theorem extracted_values_clean (df_sheet : DataFrame) (file_name sheet_name : string)
    (data : dict) (key value : string) :
  extract_data_from_sheet df_sheet file_name sheet_name = Some data →
  dict_get key data = Some value →
  Py.strip value = value ∧ (value = "" → quantity_column key = true).
Proof.
  unfold extract_data_from_sheet. destruct (_ || _); [done|]. cbv zeta.
  destruct (_ && _ && _); [done|]. intros [= <-].
  intros [Hv|Hv]%title_rows_clean; [|done].
  apply header_scan_clean in Hv as [Hs Hne]. by split.
Qed.

Lemma extracted_values_clean_witness :
  extract_data_from_sheet comma_quantity_sheet "orders.xlsx" "Sheet1"
  = Some [("Order Form", "OF123"); ("Quantity", "")]
  ∧ Py.strip "" = "" ∧ ("" = "" → quantity_column "Quantity" = true).
Proof.
  assert (extract_data_from_sheet comma_quantity_sheet "orders.xlsx" "Sheet1"
          = Some [("Order Form", "OF123"); ("Quantity", "")]) as E by (by vm_compute).
  split; [done|].
  apply (extracted_values_clean _ _ _ _ "Quantity" "" E). by vm_compute.
Defined.

(** ** The cells the extractor reads *)

Lemma foldl_ext_in {A B} (f g : A → B → A) (l : list B) (a : A) :
  (∀ a x, x ∈ l → f a x = g a x) → foldl f a l = foldl g a l.
Proof.
  revert a. induction l as [|x l IH]; intros a H; [done|].
  cbn [foldl]. rewrite (H a x) by left. apply IH. intros a' y Hy. apply H. by right.
Qed.

Lemma elem_of_range a b x : x ∈ range a b ↔ (a ≤ x < b)%nat.
Proof. unfold range. rewrite elem_of_seq. lia. Qed.

Lemma header_row_same_cells df df' d r :
  columns df = columns df' → len df = len df' → iloc df r 0 = iloc df' r 0 →
  header_row df d r = header_row df' d r.
Proof.
  intros Hc Hl H0. unfold header_row, header_field, safe_extract.
  by rewrite Hc, Hl, H0.
Qed.

Lemma title_row_same_cells df df' d r :
  columns df = columns df' →
  (∀ c, c ∈ [1; 2; 4]%nat → iloc df r c = iloc df' r c) →
  title_row df d r = title_row df' d r.
Proof.
  intros Hc Hcells. unfold title_row.
  rewrite Hc, (Hcells 1%nat), (Hcells 2%nat), (Hcells 4%nat); [done|..].
  - do 2 right; left.
  - right; left.
  - left.
Qed.

(** X18.  The extractor reads nothing but the size of the sheet, the
    first cell of rows 3 to 9 and cells 1, 2 and 4 of the rows from 8 on:
    two sheets that agree there yield the same result, whatever the rest
    of the sheets and the names of file and sheet. *)
Theorem extract_reads_only (df df' : DataFrame)
    (file_name sheet_name file_name' sheet_name' : string) :
  same_cells_read df df' →
  extract_data_from_sheet df file_name sheet_name
  = extract_data_from_sheet df' file_name' sheet_name'.
Proof.
  intros (Hc & Hl & Hhead & Htitle).
  assert (build_record df = build_record df') as Hrec.
  { unfold build_record, title_scan, header_scan. rewrite Hl.
    rewrite (foldl_ext_in (header_row df) (header_row df')).
    - apply foldl_ext_in. intros d r Hr%elem_of_range.
      apply title_row_same_cells; [done|]. intros c Hcell. apply Htitle; [lia|done].
    - intros d r Hr%elem_of_range.
      apply header_row_same_cells; [done..|]. apply Hhead. lia. }
  unfold extract_data_from_sheet, empty. by rewrite Hrec, Hc, Hl.
Qed.

Lemma extract_reads_only_witness :
  extract_data_from_sheet two_order_forms "a.xlsx" "Sheet1"
  = extract_data_from_sheet two_order_forms_banner "b.xlsx" "Sheet2".
Proof.
  apply extract_reads_only. split_and!; [done..| |].
  - intros r Hr.
    destruct r as [|[|[|[|[|r]]]]]; [lia..|done|done|].
    unfold iloc. cbn. by destruct r as [|[|[|r]]].
  - intros r c Hr _. unfold iloc.
    do 8 (destruct r as [|r]; [lia|]). done.
Defined.
